(** * enhydris-autoprocess: range checks, curve interpolation and aggregation

    A shallow embedding of [enhydris_autoprocess/models.py].  Time series are
    lists of records in index order; values are IEEE binary64 numbers
    (primitive floats) with NaN as the missing value, exactly as pandas holds
    them; flags are the space-separated strings of the [flags] column.
    Strings are strings of ASCII characters: a Python string with a
    character beyond ASCII (a digit of another script, say) has no
    counterpart here, and the statements about offsets and steps say so with
    [ascii_only].  Methods that mutate [self] are
    state transformers; code that can raise returns a [result]; the
    functions of pandas and haggregate that [Aggregation] calls are
    parameters of its methods.  The definitions come first, the properties
    after them. *)

From Stdlib Require Import ZArith List String Ascii Bool Lia Floats Uint63 DecimalString Permutation.
Import ListNotations.
Local Open Scope Z_scope.

(** ** Exceptions and results *)

(** The exceptions of the module's own statements, by class, and
    [LibraryError] for one raised inside pandas, numpy or haggregate, carried
    under the name of its class. *)
Inductive exn : Type :=
| IndexError
| ValueError
| ZeroDivisionError
| AttributeError
| UnboundLocalError
| DoesNotExist
| IntegrityError
| LibraryError (class_name : string).

Definition exn_eqb (a b : exn) : bool :=
  match a, b with
  | IndexError, IndexError | ValueError, ValueError
  | ZeroDivisionError, ZeroDivisionError | AttributeError, AttributeError
  | UnboundLocalError, UnboundLocalError | DoesNotExist, DoesNotExist
  | IntegrityError, IntegrityError => true
  | LibraryError c, LibraryError c' => String.eqb c c'
  | _, _ => false
  end.

Inductive result (A : Type) : Type :=
| Ok (a : A)
| Raise (e : exn).
Arguments Ok {A} a.
Arguments Raise {A} e.

Definition bind {A B : Type} (m : result A) (k : A -> result B) : result B :=
  match m with
  | Ok a => k a
  | Raise e => Raise e
  end.

Notation "x <- m ;; k" := (bind m (fun x => k))
  (at level 61, m at next level, right associativity).

(** Results of the calls into pandas, numpy and haggregate. *)
Inductive lib_result (A : Type) : Type :=
| LibOk (a : A)
| LibRaise (class_name : string).
Arguments LibOk {A} a.
Arguments LibRaise {A} class_name.

Definition call {A : Type} (m : lib_result A) : result A :=
  match m with
  | LibOk a => Ok a
  | LibRaise c => Raise (LibraryError c)
  end.

(** ** Time series *)

(** One row of [htimeseries.data]: the index entry (nanoseconds since the
    epoch, as pandas counts), the [value] column and the [flags] column. *)
Record record : Type := mkRecord {
  timestamp : Z;
  value : float;
  flags : string
}.

Definition series : Type := list record.

Definition set_value (r : record) (v : float) : record :=
  mkRecord (timestamp r) v (flags r).

Definition set_flags (r : record) (f : string) : record :=
  mkRecord (timestamp r) (value r) f.

(** [pd.isnull] on a float column. *)
Definition isnull (v : float) : bool := is_nan v.

(** [d.loc[mask, col] = f(d.loc[mask, col])]: rows whose mask entry is set
    are rewritten, the others are kept. *)
Fixpoint loc_update (f : record -> record) (mask : list bool) (d : series) : series :=
  match mask, d with
  | m :: mask', r :: d' => (if m then f r else r) :: loc_update f mask' d'
  | _, _ => d
  end.

(** Element-wise [&] of two boolean columns. *)
Fixpoint mask_and (a b : list bool) : list bool :=
  match a, b with
  | x :: a', y :: b' => (x && y) :: mask_and a' b'
  | _, _ => []
  end.

(** Python's [needle in hay] on strings. *)
Fixpoint contains (needle hay : string) : bool :=
  if prefix needle hay then true
  else match hay with
       | EmptyString => false
       | String _ hay' => contains needle hay'
       end.

(** A string of the model stands for the Python string with the same
    characters when every character is an ASCII character. *)
Fixpoint ascii_only (s : string) : bool :=
  match s with
  | EmptyString => true
  | String c s' => (nat_of_ascii c <? 128)%nat && ascii_only s'
  end.

(** The flags column read as a set of tokens. *)
Fixpoint split_on (sep : ascii) (s : string) : list string :=
  match s with
  | EmptyString => [EmptyString]
  | String c s' =>
      if Ascii.eqb c sep then EmptyString :: split_on sep s'
      else match split_on sep s' with
           | w :: ws => String c w :: ws
           | [] => [String c EmptyString]
           end
  end.

Definition has_flag (f : string) (fl : string) : bool :=
  existsb (String.eqb f) (split_on " "%char fl).

(** What [_add_flag_to_out_of_bounds_values] writes in a selected row. *)
Definition flagged (flag : string) (r : record) : record :=
  set_flags r ((if String.eqb (flags r) "" then flags r else flags r ++ " ") ++ flag).

(** ** RangeCheck *)

Module RangeCheck.

(** The model fields; the soft bounds are nullable. *)
Record t : Type := mk {
  upper_bound : float;
  lower_bound : float;
  soft_upper_bound : option float;
  soft_lower_bound : option float
}.

(** The attributes the methods read and write on [self]. *)
Record state : Type := mkState {
  htimeseries : series;
  out_of_bounds_mask : list bool
}.

(** [series >= other] and [series <= other] for one element.  pandas
    answers a comparison with a null scalar ([None]) with False at every
    position. *)
Definition ge_scalar (v : float) (other : option float) : bool :=
  match other with
  | Some b => (b <=? v)%float
  | None => false
  end.

Definition le_scalar (v : float) (other : option float) : bool :=
  match other with
  | Some b => (v <=? b)%float
  | None => false
  end.

(** [Series.between(left, right)], inclusive on both ends. *)
Definition between (low high : option float) (v : float) : bool :=
  ge_scalar v low && le_scalar v high.

Definition _find_out_of_bounds_values (low high : option float) (st : state) : state :=
  let timeseries := htimeseries st in
  mkState timeseries
    (map (fun r => negb (isnull (value r)) && negb (between low high (value r)))
         timeseries).

Definition _replace_out_of_bounds_values_with_nan (st : state) : state :=
  mkState (loc_update (fun r => set_value r nan) (out_of_bounds_mask st) (htimeseries st))
          (out_of_bounds_mask st).

Definition _add_flag_to_out_of_bounds_values (flag : string) (st : state) : state :=
  let d := htimeseries st in
  let out_of_bounds_with_flags_mask :=
    mask_and (out_of_bounds_mask st)
             (map (fun r => negb (String.eqb (flags r) "")) d) in
  let d1 := loc_update (fun r => set_flags r (flags r ++ " "))
                       out_of_bounds_with_flags_mask d in
  let d2 := loc_update (fun r => set_flags r (flags r ++ flag))
                       (out_of_bounds_mask st) d1 in
  mkState d2 (out_of_bounds_mask st).

Definition _do_hard_limits (self : t) (st : state) : state :=
  let st := _find_out_of_bounds_values (Some (lower_bound self)) (Some (upper_bound self)) st in
  let st := _replace_out_of_bounds_values_with_nan st in
  _add_flag_to_out_of_bounds_values "RANGE" st.

Definition _do_soft_limits (self : t) (st : state) : state :=
  let st := _find_out_of_bounds_values (soft_lower_bound self) (soft_upper_bound self) st in
  _add_flag_to_out_of_bounds_values "SUSPECT" st.

Definition check_timeseries (self : t) (st : state) : state :=
  _do_soft_limits self (_do_hard_limits self st).

(** The hard pass and the whole check on a series handed over by [Checks]. *)
Definition hard_pass (self : t) (hts : series) : series :=
  htimeseries (_do_hard_limits self (mkState hts [])).

Definition run (self : t) (hts : series) : series :=
  htimeseries (check_timeseries self (mkState hts [])).

End RangeCheck.

(** The two passes, row by row. *)
Module RangeCheckRows.

Import RangeCheck.

Definition out_of_bounds (low high : option float) (r : record) : bool :=
  negb (isnull (value r)) && negb (between low high (value r)).

Definition hard_row (self : t) (r : record) : record :=
  if out_of_bounds (Some (lower_bound self)) (Some (upper_bound self)) r
  then flagged "RANGE" (set_value r nan)
  else r.

Definition soft_row (self : t) (r : record) : record :=
  if out_of_bounds (soft_lower_bound self) (soft_upper_bound self) r
  then flagged "SUSPECT" r
  else r.

End RangeCheckRows.

(** ** Checks *)

Module Checks.

Inductive check_type : Type := RangeCheckType.

(** The rows related to this [Checks] object: at most one range check. *)
Record database : Type := mkDatabase {
  range_check : option RangeCheck.t
}.

(** [check_type.objects.get(checks=self)]. *)
Definition objects_get (db : database) (ct : check_type) : result RangeCheck.t :=
  match ct with
  | RangeCheckType =>
      match range_check db with
      | Some c => Ok c
      | None => Raise DoesNotExist
      end
  end.

(** The local variable [check] ([None] while it is unbound) and
    [self.htimeseries]. *)
Record locals : Type := mkLocals {
  check : option RangeCheck.t;
  htimeseries : series
}.

(** One turn of the [for] loop.  When the [try] body raises, Python
    evaluates the expression of the [except] clause, [check.DoesNotExist],
    which reads the local [check]. *)
Definition loop_body (db : database) (ct : check_type) (l : locals) : result locals :=
  match objects_get db ct with
  | Ok c => Ok (mkLocals (Some c) (RangeCheck.run c (htimeseries l)))
  | Raise e =>
      match check l with
      | None => Raise UnboundLocalError
      | Some _ => if exn_eqb e DoesNotExist then Ok l else Raise e
      end
  end.

Fixpoint for_each (db : database) (cts : list check_type) (l : locals) : result locals :=
  match cts with
  | [] => Ok l
  | ct :: cts' => l' <- loop_body db ct l ;; for_each db cts' l'
  end.

Definition process_timeseries (db : database) (hts : series) : result series :=
  l <- for_each db [RangeCheckType] (mkLocals None hts) ;;
  Ok (htimeseries l).

End Checks.

(** ** numpy.interp *)

Module NumPy.

(** The index [binary_search_with_guess] answers: -1, [len], or the
    position of the last sample not above the key. *)
Inductive position : Type :=
| Below
| Above
| At (j : nat).

(** [for (i = 1; i < len && key >= arr[i]; ++i);] with [arr] the samples
    from position [i] on.  On ascending samples the bisection numpy uses
    for long arrays stops at the same position. *)
Fixpoint scan (key : float) (arr : list float) (i : nat) : nat :=
  match arr with
  | a :: rest => if (a <=? key)%float then scan key rest (S i) else i
  | [] => i
  end.

Definition binary_search_with_guess (key : float) (arr : list float) : position :=
  if (last arr nan <? key)%float then Above
  else if (key <? hd nan arr)%float then Below
  else At (scan key (tl arr) 1 - 1)%nat.

(** The value on the segment from [(xj, yj)] to [(xj1, yj1)]: the line
    from the left end; when that is NaN, the line from the right end;
    when that is NaN too and the ends have one height, that height. *)
Definition on_segment (xj yj xj1 yj1 x_val : float) : float :=
  let slope := ((yj1 - yj) / (xj1 - xj))%float in
  let res := (slope * (x_val - xj) + yj)%float in
  if is_nan res then
    let res' := (slope * (x_val - xj1) + yj1)%float in
    if is_nan res' && (yj =? yj1)%float then yj else res'
  else res.

(** One element of the result of [np.interp(x, xp, fp, left, right)]. *)
Definition interp_value (x_val : float) (dx dy : list float) (lval rval : float) : float :=
  match dx with
  | [xp_val] =>
      let fp_val := nth 0 dy nan in
      if (x_val <? xp_val)%float then lval
      else if (xp_val <? x_val)%float then rval
      else fp_val
  | _ =>
      if is_nan x_val then x_val
      else
        match binary_search_with_guess x_val dx with
        | Below => lval
        | Above => rval
        | At j =>
            if Nat.eqb j (List.length dx - 1) then nth j dy nan
            else if (nth j dx nan =? x_val)%float then nth j dy nan
            else on_segment (nth j dx nan) (nth j dy nan)
                            (nth (S j) dx nan) (nth (S j) dy nan) x_val
        end
  end.

Definition interp (x xp fp : list float) (left right : float) : lib_result (list float) :=
  if Nat.eqb (List.length xp) 0 then LibRaise "ValueError"
  else if negb (Nat.eqb (List.length fp) (List.length xp)) then LibRaise "ValueError"
  else LibOk (map (fun x_val => interp_value x_val xp fp left right) x).

(** Sample points in strictly ascending order, as [np.interp] expects
    them. *)
Fixpoint ascending (xs : list float) : bool :=
  match xs with
  | a :: ((b :: _) as xs') => (a <? b)%float && ascending xs'
  | _ => true
  end.

End NumPy.

(** ** CurveInterpolation, CurvePeriod, CurvePoint *)

(** [order_by]: rows in ascending order of a key.  Rows with equal keys are
    left in their stored order here; the database promises no order for
    them, and no property below depends on it. *)
Fixpoint insert_by {A : Type} (le : A -> A -> bool) (a : A) (l : list A) : list A :=
  match l with
  | [] => [a]
  | b :: l' => if le a b then a :: l else b :: insert_by le a l'
  end.

Definition order_by {A : Type} (le : A -> A -> bool) (l : list A) : list A :=
  fold_right (insert_by le) [] l.

Module CurveInterpolation.

Record CurvePoint : Type := mkPoint {
  x : float;
  y : float
}.

(** [start_date] and [end_date] are dates: days since the epoch. *)
Record CurvePeriod : Type := mkPeriod {
  start_date : Z;
  end_date : Z;
  curvepoint_set : list CurvePoint
}.

Record t : Type := mk {
  curveperiod_set : list CurvePeriod
}.

Definition _get_curve (period : CurvePeriod) : list float * list float :=
  let points := order_by (fun p q => (x p <=? x q)%float) (curvepoint_set period) in
  (map x points, map y points).

(** The instant a date stands for as a bound of a slice of the index:
    00:00 of that date. *)
Definition midnight (date : Z) : Z := date * 86400000000000.

(** Membership of a row in [timeseries.loc[start:end]], [start] and [end]
    being dates: from 00:00 of [start] to 00:00 of [end], both included. *)
Definition in_slice (start end_ : Z) (r : record) : bool :=
  (midnight start <=? timestamp r) && (timestamp r <=? midnight end_).

(** The period's slice holds the instant [ts]. *)
Definition covers (ts : Z) (period : CurvePeriod) : bool :=
  (midnight (start_date period) <=? ts) && (ts <=? midnight (end_date period)).


(** [timeseries.loc[start:end, "value"] = new_array]: the selected rows
    take the entries of the array in order. *)
Fixpoint loc_assign (mask : list bool) (new_array : list float) (d : series) : series :=
  match mask, d with
  | true :: mask', r :: d' =>
      match new_array with
      | v :: vs => set_value r v :: loc_assign mask' vs d'
      | [] => r :: loc_assign mask' [] d'
      end
  | false :: mask', r :: d' => r :: loc_assign mask' new_array d'
  | _, _ => d
  end.

(** The body of the loop over the periods. *)
Definition process_period (timeseries : series) (period : CurvePeriod) : result series :=
  let '(x, y) := _get_curve period in
  let '(start, end_) := (start_date period, end_date period) in
  let selected := map (in_slice start end_) timeseries in
  let values_array := map value (filter (in_slice start end_) timeseries) in
  new_array <- call (NumPy.interp values_array x y nan nan) ;;
  let timeseries := loc_assign selected new_array timeseries in
  Ok (loc_update (fun r => set_flags r "") selected timeseries).

Fixpoint process_periods (periods : list CurvePeriod) (timeseries : series) : result series :=
  match periods with
  | [] => Ok timeseries
  | period :: periods' =>
      timeseries' <- process_period timeseries period ;;
      process_periods periods' timeseries'
  end.

Definition process_timeseries (self : t) (hts : series) : result series :=
  process_periods
    (order_by (fun p q => start_date p <=? start_date q) (curveperiod_set self)) hts.

(** What the loop body does to one row. *)
Definition apply_period (period : CurvePeriod) (r : record) : record :=
  if covers (timestamp r) period then
    mkRecord (timestamp r)
             (NumPy.interp_value (value r) (fst (_get_curve period)) (snd (_get_curve period)) nan nan)
             ""
  else r.

End CurveInterpolation.

(** ** Aggregation *)

Module Aggregation.

Inductive method_t : Type := Sum | Mean | Max | Min.

Record t : Type := mk {
  target_time_step : string;
  method : method_t;
  max_missing : Z;
  resulting_timestamp_offset : string
}.

(** A [pd.Timedelta]: not-a-time, or a count of nanoseconds. *)
Inductive timedelta : Type :=
| NaT
| Td (nanos : Z).

(** The pandas functions the class calls. *)
Record pandas : Type := mkPandas {
  (** [pd.infer_freq(index)] *)
  infer_freq : list Z -> lib_result (option string);
  (** [pd.tseries.frequencies.to_offset(freq)]: the nanoseconds of the tick *)
  to_offset : option string -> lib_result (option Z);
  (** [pd.Timedelta(s)] *)
  Timedelta : string -> lib_result timedelta
}.

(** The haggregate functions the class calls. *)
Record haggregate : Type := mkHaggregate {
  (** [regularize(hts, new_date_flag=...)] *)
  regularize : series -> string -> lib_result series;
  (** [aggregate(hts, target_step, method, min_count=...,
      target_timestamp_offset=...)] *)
  aggregate : series -> string -> method_t -> Z -> option string -> lib_result series
}.

(** *** The offset check of [save] *)

(** [\d] of the regular expression and [str.isdigit] on an ASCII
    character: the digits 0 to 9.  Both also accept digits beyond ASCII,
    which the strings of the model do not hold. *)
Definition isdigit (c : ascii) : bool :=
  (48 <=? nat_of_ascii c)%nat && (nat_of_ascii c <=? 57)%nat.

Definition newline : ascii := "010"%char.

(** [(\d* )] from the left, greedy: the digits and what follows them. *)
Fixpoint span_digits (s : string) : string * string :=
  match s with
  | String c s' =>
      if isdigit c then let '(d, rest) := span_digits s' in (String c d, rest)
      else (EmptyString, s)
  | EmptyString => (EmptyString, EmptyString)
  end.

(** [(.* )$]: [.] stops at a line break and [$] holds at the end of the
    string or before a line break that ends it. *)
Fixpoint dot_star_dollar (s : string) : option string :=
  match s with
  | EmptyString => Some EmptyString
  | String c s' =>
      if Ascii.eqb c newline then
        match s' with
        | EmptyString => Some EmptyString
        | String _ _ => None
        end
      else
        match dot_star_dollar s' with
        | Some u => Some (String c u)
        | None => None
        end
  end.

(** [re.match(r"(-?)(\d* )(.* )$", s)] and its groups 1, 2 and 3; when the
    greedy choice leaves a line break inside the rest, no shorter choice
    of the first two groups removes it, and there is no match. *)
Definition re_match (s : string) : option (string * string * string) :=
  let '(sign, rest) :=
    match s with
    | String "-"%char s' => ("-"%string, s')
    | _ => (EmptyString, s)
    end in
  let '(number, rest) := span_digits rest in
  match dot_star_dollar rest with
  | Some unit_ => Some (sign, number, unit_)
  | None => None
  end.

Definition _check_nonempty_resulting_timestamp_offset (self : t) : result unit :=
  match re_match (resulting_timestamp_offset self) with
  | None => Raise AttributeError
  | Some (sign, number, unit_) =>
      if negb (String.eqb unit_ "min")
         || (String.eqb sign "-" && String.eqb number "")
      then Raise IntegrityError
      else Ok tt
  end.

Definition _check_resulting_timestamp_offset (self : t) : result unit :=
  if String.eqb (resulting_timestamp_offset self) "" then Ok tt
  else _check_nonempty_resulting_timestamp_offset self.

(** [save]: the check, then [super().save] stores the row in the table. *)
Definition save (self : t) (table : list t) : result (list t) :=
  _ <- _check_resulting_timestamp_offset self ;;
  Ok (self :: table).

(** *** The processing pass *)

(** [self.htimeseries.data.index[-1]] *)
Fixpoint index_last (data : series) : result Z :=
  match data with
  | [] => Raise IndexError
  | [r] => Ok (timestamp r)
  | _ :: data' => index_last data'
  end.

Definition _regularize_time_series (hag : haggregate) (hts : series) : result series :=
  call (regularize hag hts "DATEINSERT").

Definition _get_source_step (lib : pandas) (hts : series) : result (option string) :=
  call (infer_freq lib (map timestamp hts)).

Definition _get_target_step (self : t) : result string :=
  match target_time_step self with
  | EmptyString => Raise IndexError
  | String c _ =>
      Ok (if isdigit c then target_time_step self
          else ("1" ++ target_time_step self)%string)
  end.

(** [int(pd.Timedelta(target_step) / to_offset(source_step))]: the quotient
    of the two nanosecond counts, cut towards zero by [int].  With [NaT] or
    [None] on either side the quotient is NaN and [int] raises
    [ValueError]. *)
Definition _divide_target_step_by_source_step
    (lib : pandas) (source_step : option string) (target_step : string) : result Z :=
  td <- call (Timedelta lib target_step) ;;
  off <- call (to_offset lib source_step) ;;
  match td, off with
  | Td a, Some b => if b =? 0 then Raise ZeroDivisionError else Ok (Z.quot a b)
  | _, _ => Raise ValueError
  end.

(** The value bound to [min_count] in [_aggregate_time_series]. *)
Definition min_count
    (lib : pandas) (self : t) (source_step : option string) (target_step : string) : result Z :=
  q <- _divide_target_step_by_source_step lib source_step target_step ;;
  let min_count := q - max_missing self in
  Ok (Z.max min_count 1).

Definition _aggregate_time_series
    (lib : pandas) (hag : haggregate) (self : t) (hts : series) : result series :=
  source_step <- _get_source_step lib hts ;;
  target_step <- _get_target_step self ;;
  mc <- min_count lib self source_step target_step ;;
  call (aggregate hag hts target_step (method self) mc
          (if String.eqb (resulting_timestamp_offset self) "" then None
           else Some (resulting_timestamp_offset self))).

(** [timestamp + timedelta]; [None] is [NaT]. *)
Definition timestamp_add (ts : Z) (td : timedelta) : option Z :=
  match td with
  | NaT => None
  | Td n => Some (ts + n)
  end.

(** [a < b] with [b] possibly [NaT]: a comparison with [NaT] is False. *)
Definition timestamp_lt (a : Z) (b : option Z) : bool :=
  match b with
  | Some b' => a <? b'
  | None => false
  end.

Definition _last_target_record_needs_trimming
    (lib : pandas) (self : t) (source_end_date : Z) (data : series) : result bool :=
  match data with
  | [] => Ok false
  | r0 :: data' =>
      let last_target_record := last data' r0 in
      td <- call (Timedelta lib (resulting_timestamp_offset self)) ;;
      let last_target_record_date := timestamp_add (timestamp last_target_record) td in
      Ok (contains "MISS" (flags last_target_record)
               && timestamp_lt source_end_date last_target_record_date)
  end.

Definition _trim_last_record_if_not_complete
    (lib : pandas) (self : t) (source_end_date : Z) (data : series) : result series :=
  b <- _last_target_record_needs_trimming lib self source_end_date data ;;
  Ok (if (b : bool) then removelast data else data).

Definition process_timeseries
    (lib : pandas) (hag : haggregate) (self : t) (hts : series) : result series :=
  source_end_date <- index_last hts ;;
  hts <- _regularize_time_series hag hts ;;
  hts <- _aggregate_time_series lib hag self hts ;;
  _trim_last_record_if_not_complete lib self source_end_date hts.

End Aggregation.

(** The offsets the specification lets [save] accept, and those it accepts. *)
Module OffsetForms.

Import Aggregation.

Fixpoint all_digits (s : string) : bool :=
  match s with
  | EmptyString => true
  | String c s' => isdigit c && all_digits s'
  end.

Fixpoint no_line_break (s : string) : bool :=
  match s with
  | EmptyString => true
  | String c s' => negb (Ascii.eqb c newline) && no_line_break s'
  end.

(** An offset in minutes as the specification words it: an optionally
    negative number followed by [min]. *)
Definition number_of_minutes (s : string) : Prop :=
  exists sign digits : string,
    s = (sign ++ digits ++ "min")%string /\
    (sign = ""%string \/ sign = "-"%string) /\
    digits <> ""%string /\
    all_digits digits = true.

(** What [save] accepts: as above, and the number may be left out when
    there is no minus sign. *)
Definition minutes_offset (s : string) : Prop :=
  exists sign digits : string,
    s = (sign ++ digits ++ "min")%string /\
    (sign = ""%string \/ (sign = "-"%string /\ digits <> ""%string)) /\
    all_digits digits = true.

(** The test of [_check_nonempty_resulting_timestamp_offset]. *)
Definition accepted (s : string) : bool :=
  match re_match s with
  | Some (sign, number, unit_) =>
      negb (negb (String.eqb unit_ "min")
            || (String.eqb sign "-" && String.eqb number ""))
  | None => false
  end.

End OffsetForms.

(** ** The window rule of the aggregator *)

Module AggregatorSpec.

Import Aggregation.

(** The quotient rounded up. *)
Definition ceil_div (a b : Z) : Z := - ((- a) / b).

Definition non_missing (window : list float) : list float :=
  filter (fun v => negb (is_nan v)) window.

Definition count (window : list float) : Z :=
  Z.of_nat (List.length (non_missing window)).

(** Modelled from the spec: a reduction of haggregate's [aggregate], whose
    code is not in this repository.  Section 4.4, step 4: [sum], [mean],
    [max] and [min] over the non-missing values only; a reduction over no
    value yields missing. *)
Definition reduce (m : method_t) (window : list float) : float :=
  match non_missing window with
  | [] => nan
  | v :: vs =>
      match m with
      | Sum => fold_left PrimFloat.add vs v
      | Mean =>
          (fold_left PrimFloat.add vs v
           / of_uint63 (Uint63.of_Z (Z.of_nat (List.length (v :: vs)))))%float
      | Max => fold_left (fun a b => if (a <? b)%float then b else a) vs v
      | Min => fold_left (fun a b => if (b <? a)%float then b else a) vs v
      end
  end.

(** Modelled from the spec: the window rule of haggregate's [aggregate],
    whose code is not in this repository.  Section 4.4, step 3, with [n]
    the count of non-missing values of the window and [N] its capacity:
    no usable value gives missing with no flag; [n < min_count] gives
    missing; [n >= min_count] gives the reduction, flagged [MISS] when
    [n < N] and not flagged when the window is complete.  The spec does not
    say which flag a window with some values, but fewer than [min_count],
    carries: it is the parameter [short_flag]. *)
Definition aggregate_window
    (short_flag : string) (m : method_t) (min_count capacity : Z) (window : list float)
  : float * string :=
  let n := count window in
  if n <? 1 then (nan, ""%string)
  else if n <? min_count then (nan, short_flag)
  else (reduce m window, if n <? capacity then "MISS"%string else ""%string).

End AggregatorSpec.

(** ** pandas on minute strings *)

(** The three pandas functions on the strings the examples use: steps and
    offsets written as a count of minutes.  pandas reads many more strings;
    these definitions answer [ValueError] to them and serve only to run the
    model on concrete configurations. *)
Module Minutes.

Import Aggregation.

Definition minute : Z := 60000000000.

Fixpoint digits_value (acc : Z) (s : string) : Z :=
  match s with
  | EmptyString => acc
  | String c s' => digits_value (10 * acc + (Z.of_nat (nat_of_ascii c) - 48)) s'
  end.

(** [Some n] for an optional [-], digits and [min]; the digits may be
    left out when [optional_count] is set, and then count as 1. *)
Definition parse (optional_count : bool) (s : string) : option Z :=
  match re_match s with
  | Some (sign, number, unit_) =>
      if String.eqb unit_ "min" then
        let sgn := if String.eqb sign "-" then -1 else 1 in
        if String.eqb number "" then
          if optional_count then Some sgn else None
        else Some (sgn * digits_value 0 number)
      else None
  | None => None
  end.

(** [pd.Timedelta]: the empty string is read as [NaT]; a unit without a
    number is refused. *)
Definition Timedelta (s : string) : lib_result timedelta :=
  if String.eqb s "" then LibOk NaT
  else match parse false s with
       | Some n => LibOk (Td (n * minute))
       | None => LibRaise "ValueError"
       end.

(** [to_offset]: [None] for [None]; the count of a frequency string
    defaults to 1. *)
Definition to_offset (freq : option string) : lib_result (option Z) :=
  match freq with
  | None => LibOk None
  | Some s =>
      match parse true s with
      | Some n => LibOk (Some (n * minute))
      | None => LibRaise "ValueError"
      end
  end.

Fixpoint uniform (d : Z) (idx : list Z) : bool :=
  match idx with
  | a :: ((b :: _) as idx') => (b - a =? d) && uniform d idx'
  | _ => true
  end.

Definition render (n : Z) : string :=
  (DecimalString.NilZero.string_of_uint (N.to_uint (Z.to_N n)) ++ "min")%string.

(** [pd.infer_freq]: at least three instants are needed; a uniform
    spacing of whole minutes is answered as a count of minutes. *)
Definition infer_freq (idx : list Z) : lib_result (option string) :=
  match idx with
  | a :: b :: _ :: _ =>
      let d := b - a in
      if (0 <? d) && (d mod minute =? 0) && uniform d idx
      then LibOk (Some (render (d / minute)))
      else LibOk None
  | _ => LibRaise "ValueError"
  end.

Definition lib : pandas := mkPandas infer_freq to_offset Timedelta.

End Minutes.

(** ** The order of binary64 numbers, by rank *)

Module FloatRank.

Import SpecFloat.

(** A key whose lexicographic order is the order of the numbers. *)
Definition rank (f : spec_float) : Z * Z * Z :=
  match f with
  | S754_nan => (0, 0, 0)
  | S754_infinity true => (-2, 0, 0)
  | S754_infinity false => (2, 0, 0)
  | S754_zero _ => (0, 0, 0)
  | S754_finite true m e => (-1, - e, - Zpos m)
  | S754_finite false m e => (1, e, Zpos m)
  end.

Definition lexcmp (p q : Z * Z * Z) : comparison :=
  let '(k1, e1, m1) := p in
  let '(k2, e2, m2) := q in
  match k1 ?= k2 with
  | Eq => match e1 ?= e2 with
          | Eq => m1 ?= m2
          | c => c
          end
  | c => c
  end.

Definition lexlt (p q : Z * Z * Z) : Prop :=
  let '(k1, e1, m1) := p in
  let '(k2, e2, m2) := q in
  k1 < k2 \/ (k1 = k2 /\ (e1 < e2 \/ (e1 = e2 /\ m1 < m2))).

Definition is_nan_spec (f : spec_float) : bool :=
  match f with
  | S754_nan => true
  | _ => false
  end.

(** Not a NaN. *)
Definition number (a : float) : bool := negb (is_nan_spec (Prim2SF a)).

End FloatRank.

(** ** CurvePeriod.set_curve *)

Module CurveEditing.

Import CurveInterpolation.

Definition tab : ascii := "009"%char.

(** [s.replace("\t", ",")] *)
Fixpoint replace_tabs (s : string) : string :=
  match s with
  | EmptyString => EmptyString
  | String c s' => String (if Ascii.eqb c tab then ","%char else c) (replace_tabs s')
  end.

(** How a call of [set_curve] ends. *)
Inductive ending : Type :=
| Returned
| RaisedValueError.

(** [[float(item) for item in items]]; [to_float] is Python's [float] on a
    string, [None] when it raises [ValueError]. *)
Fixpoint floats (to_float : string -> option float) (items : list string) : option (list float) :=
  match items with
  | [] => Some []
  | item :: items' =>
      match to_float item with
      | Some v =>
          match floats to_float items' with
          | Some vs => Some (v :: vs)
          | None => None
          end
      | None => None
      end
  end.

(** [x, y = [float(item) for item in row[:2]]]: [None] when a [float]
    raises or when there are not two values to unpack. *)
Definition read_row (to_float : string -> option float) (row : list string) : option CurvePoint :=
  match floats to_float (firstn 2 row) with
  | Some [x; y] => Some (mkPoint x y)
  | _ => None
  end.

(** The loop over the rows; [points] are the stored points of the period,
    [CurvePoint.objects.create] adds one at the end. *)
Fixpoint create_points (to_float : string -> option float) (rows : list (list string))
         (points : list CurvePoint) : list CurvePoint * ending :=
  match rows with
  | [] => (points, Returned)
  | row :: rows' =>
      match read_row to_float row with
      | Some p => create_points to_float rows' (points ++ [p])
      | None => (points, RaisedValueError)
      end
  end.

(** [set_curve]: the period as it is stored when the call ends, and how it
    ends.  [csv_reader] gives the rows [csv.reader(StringIO(s))] yields. *)
Definition set_curve (csv_reader : string -> list (list string))
           (to_float : string -> option float)
           (self : CurvePeriod) (s : string) : CurvePeriod * ending :=
  let s := replace_tabs s in
  let deleted : list CurvePoint := [] in
  let '(points, e) := create_points to_float (csv_reader s) deleted in
  (mkPeriod (start_date self) (end_date self) points, e).

End CurveEditing.

(** A reader and a conversion to run [set_curve] on. *)
Module CurveEditingSamples.

Import CurveEditing.

(** The lines of a text: what follows the last line break is a line only
    when it is not empty. *)
Fixpoint lines (s : string) (cur : string) : list string :=
  match s with
  | EmptyString => if String.eqb cur "" then [] else [cur]
  | String c s' =>
      if Ascii.eqb c Aggregation.newline then cur :: lines s' EmptyString
      else lines s' (cur ++ String c EmptyString)
  end.

(** [csv.reader] on a text without quotes or carriage returns: one row a
    line, the fields split at commas, no field at all for an empty line.
    Three strings are numbers. *)
Definition split_rows (s : string) : list (list string) :=
  map (fun line => if String.eqb line "" then [] else split_on ","%char line)
      (lines s EmptyString).

Definition three_numbers (s : string) : option float :=
  if String.eqb s "0" then Some 0%float
  else if String.eqb s "10" then Some 10%float
  else if String.eqb s "100" then Some 100%float
  else None.

Definition two_rows : string :=
  String "0" (String tab (String "0" (String Aggregation.newline "10,100"))).

End CurveEditingSamples.

(** Numbers in non-descending order. *)
Fixpoint nondecreasing (xs : list float) : bool :=
  match xs with
  | a :: ((b :: _) as xs') => (a <=? b)%float && nondecreasing xs'
  | _ => true
  end.

(** * Properties *)

(** ** Masks and flag strings *)

Lemma loc_update_map (f : record -> record) (p : record -> bool) (g : record -> record) (d : series) :
  loc_update f (map p d) (map g d) = map (fun r => if p r then f (g r) else g r) d.
Proof.
  induction d as [|r d IH]; simpl; [reflexivity|].
  now rewrite IH.
Qed.

Lemma loc_update_rows (f : record -> record) (p : record -> bool) (d : series) :
  loc_update f (map p d) d = map (fun r => if p r then f r else r) d.
Proof.
  induction d as [|r d IH]; simpl; [reflexivity|].
  now rewrite IH.
Qed.

Lemma mask_and_rows (p : record -> bool) (q : record -> bool) (d : series) :
  mask_and (map p d) (map q d) = map (fun r => p r && q r) d.
Proof.
  induction d as [|r d IH]; simpl; [reflexivity|].
  now rewrite IH.
Qed.

Lemma mask_and_map (p : record -> bool) (q : record -> bool) (g : record -> record) (d : series) :
  mask_and (map p d) (map q (map g d)) = map (fun r => p r && q (g r)) d.
Proof.
  induction d as [|r d IH]; simpl; [reflexivity|].
  now rewrite IH.
Qed.

Lemma string_app_assoc (a b c : string) : ((a ++ b) ++ c = a ++ (b ++ c))%string.
Proof.
  induction a as [|ch a IH]; simpl; [reflexivity|].
  now rewrite IH.
Qed.

Lemma split_on_nonempty (sep : ascii) (s : string) : split_on sep s <> [].
Proof.
  destruct s as [|c s]; simpl; [discriminate|].
  destruct (Ascii.eqb c sep); [discriminate|].
  destruct (split_on sep s); discriminate.
Qed.

Lemma split_on_app (sep : ascii) (s f : string) :
  split_on sep (s ++ String sep f) = split_on sep s ++ split_on sep f.
Proof.
  induction s as [|c s IH]; simpl.
  - now rewrite Ascii.eqb_refl.
  - destruct (Ascii.eqb c sep); [now rewrite IH|].
    rewrite IH.
    destruct (split_on sep s) as [|w ws] eqn:E; [|reflexivity].
    now apply split_on_nonempty in E.
Qed.

Lemma has_flag_flagged (flag : string) (r : record) :
  split_on " " flag = [flag] -> has_flag flag (flags (flagged flag r)) = true.
Proof.
  intros Hf. unfold flagged, has_flag. simpl.
  destruct (String.eqb_spec (flags r) "") as [E|E].
  - rewrite E. simpl. rewrite Hf. simpl. now rewrite String.eqb_refl.
  - rewrite string_app_assoc. simpl.
    rewrite split_on_app, existsb_app, Hf. simpl.
    rewrite String.eqb_refl. now rewrite orb_true_r.
Qed.

(** ** RangeCheck: the passes, row by row *)

Module RangeCheckFacts.

Import RangeCheck RangeCheckRows.

Lemma add_flag_rows (flag : string) (p : record -> bool) (g : record -> record) (d : series) :
  htimeseries (_add_flag_to_out_of_bounds_values flag (mkState (map g d) (map p d)))
  = map (fun r => if p r then flagged flag (g r) else g r) d.
Proof.
  unfold _add_flag_to_out_of_bounds_values.
  cbn [htimeseries out_of_bounds_mask].
  rewrite mask_and_map.
  rewrite (loc_update_map _ _ g).
  rewrite <- (map_map (fun r => if p r && negb (String.eqb (flags (g r)) "")
                                then set_flags (g r) (flags (g r) ++ " ") else g r)
                      (fun r => r)) at 1.
  rewrite map_id.
  set (g1 := fun r => if p r && negb (String.eqb (flags (g r)) "")
                      then set_flags (g r) (flags (g r) ++ " ") else g r).
  rewrite (loc_update_map _ p g1).
  apply map_ext. intros r. unfold g1, flagged.
  destruct (p r); simpl; [|reflexivity].
  destruct (String.eqb (flags (g r)) ""); reflexivity.
Qed.

Lemma do_hard_limits_rows (self : t) (st : state) :
  htimeseries (_do_hard_limits self st) = map (hard_row self) (htimeseries st).
Proof.
  unfold _do_hard_limits, _replace_out_of_bounds_values_with_nan,
    _find_out_of_bounds_values.
  cbn [htimeseries out_of_bounds_mask].
  set (p := fun r => negb (isnull (value r))
                     && negb (between (Some (lower_bound self)) (Some (upper_bound self)) (value r))).
  rewrite (loc_update_rows _ p).
  set (g := fun r => if p r then set_value r nan else r).
  rewrite (add_flag_rows "RANGE" p g).
  apply map_ext. intros r. unfold hard_row, out_of_bounds, g. fold (p r).
  destruct (p r); reflexivity.
Qed.

Lemma do_soft_limits_rows (self : t) (st : state) :
  htimeseries (_do_soft_limits self st) = map (soft_row self) (htimeseries st).
Proof.
  unfold _do_soft_limits, _find_out_of_bounds_values.
  cbn [htimeseries out_of_bounds_mask].
  set (p := fun r => negb (isnull (value r))
                     && negb (between (soft_lower_bound self) (soft_upper_bound self) (value r))).
  pose proof (add_flag_rows "SUSPECT" p (fun r => r) (htimeseries st)) as H.
  rewrite map_id in H. rewrite H.
  apply map_ext. intros r. reflexivity.
Qed.

Lemma hard_pass_rows (self : t) (hts : series) :
  hard_pass self hts = map (hard_row self) hts.
Proof. unfold hard_pass. now rewrite do_hard_limits_rows. Qed.

Lemma run_rows (self : t) (hts : series) :
  run self hts = map (soft_row self) (hard_pass self hts).
Proof.
  unfold run, check_timeseries, hard_pass. now rewrite do_soft_limits_rows.
Qed.

End RangeCheckFacts.

(** ** RangeCheck: the hard pass (C2) *)

Module RangeCheckProps.

Import RangeCheck RangeCheckRows RangeCheckFacts.

(** C2.  After the hard pass the series has the same rows in the same
    order, and for the row at any position: when the input value is
    non-missing and outside [[lower_bound, upper_bound]] (both ends
    belonging to the interval), the output value is missing and the flags
    are the input flags with [RANGE] added, after a blank when there were
    flags already; every non-missing output value lies within the bounds;
    a row whose input value is missing comes out as it went in. *)
Theorem C2_hard_pass (self : t) (hts : series) (i : nat) (r : record) :
  nth_error hts i = Some r ->
  List.length (hard_pass self hts) = List.length hts /\
  exists r',
    nth_error (hard_pass self hts) i = Some r' /\
    timestamp r' = timestamp r /\
    (isnull (value r) = false ->
     ((lower_bound self <=? value r)%float && (value r <=? upper_bound self)%float) = false ->
     isnull (value r') = true /\
     flags r' = ((if String.eqb (flags r) "" then "" else flags r ++ " ") ++ "RANGE")%string /\
     has_flag "RANGE" (flags r') = true) /\
    (isnull (value r') = false ->
     (lower_bound self <=? value r')%float = true /\
     (value r' <=? upper_bound self)%float = true) /\
    (isnull (value r) = true -> r' = r).
Proof.
  intros Hr. rewrite hard_pass_rows. split; [apply length_map|].
  exists (hard_row self r). split; [now apply map_nth_error|].
  unfold hard_row, out_of_bounds, between, ge_scalar, le_scalar.
  destruct (isnull (value r)) eqn:Hnull; simpl.
  - repeat split; intros; try reflexivity; congruence.
  - destruct ((lower_bound self <=? value r)%float && (value r <=? upper_bound self)%float)
      eqn:Hin; simpl.
    + repeat split; try discriminate.
      * now apply andb_true_iff in Hin.
      * now apply andb_true_iff in Hin.
    + repeat split; try discriminate.
      * destruct (String.eqb_spec (flags r) ""); [congruence | reflexivity].
      * apply (has_flag_flagged "RANGE" (set_value r nan)). reflexivity.
Qed.

Lemma C2_hard_pass_witness :
  exists r',
    nth_error (hard_pass (mk 100 0 None None) [mkRecord 0 150 "X"; mkRecord 1 50 ""]) 0 = Some r' /\
    isnull (value r') = true /\ flags r' = "X RANGE"%string.
Proof.
  destruct (C2_hard_pass (mk 100 0 None None)
              [mkRecord 0 150 "X"; mkRecord 1 50 ""] 0%nat (mkRecord 0 150 "X") eq_refl)
    as [_ [r' [H1 [_ [H2 _]]]]].
  exists r'. split; [exact H1|].
  destruct (H2 eq_refl eq_refl) as [Ha [Hb _]].
  split; [exact Ha | exact Hb].
Defined.

(** ** RangeCheck: the soft pass (C5) *)

(** C5.  With both soft bounds set, the soft pass keeps the rows, their
    order, their timestamps and every value, whatever the series it runs
    on (so also on the hard-limited one); a row whose value is non-missing
    and outside [[soft_lower_bound, soft_upper_bound]] has [SUSPECT] added
    to its flags; every other row, in particular one whose value lies
    within the soft bounds, comes out as it went in. *)
Theorem C5_soft_pass (self : t) (slo shi : float) (st : state) (i : nat) (r : record) :
  soft_lower_bound self = Some slo ->
  soft_upper_bound self = Some shi ->
  nth_error (htimeseries st) i = Some r ->
  List.length (htimeseries (_do_soft_limits self st)) = List.length (htimeseries st) /\
  map value (htimeseries (_do_soft_limits self st)) = map value (htimeseries st) /\
  exists r',
    nth_error (htimeseries (_do_soft_limits self st)) i = Some r' /\
    timestamp r' = timestamp r /\
    value r' = value r /\
    (isnull (value r) = false ->
     ((slo <=? value r)%float && (value r <=? shi)%float) = false ->
     flags r' = ((if String.eqb (flags r) "" then "" else flags r ++ " ") ++ "SUSPECT")%string /\
     has_flag "SUSPECT" (flags r') = true) /\
    (((slo <=? value r)%float && (value r <=? shi)%float) = true -> r' = r) /\
    (isnull (value r) = true -> r' = r).
Proof.
  intros Hlo Hhi Hr. rewrite do_soft_limits_rows.
  split; [apply length_map|].
  split.
  { rewrite map_map. apply map_ext. intros a. unfold soft_row.
    destruct (out_of_bounds _ _ a); reflexivity. }
  exists (soft_row self r). split; [now apply map_nth_error|].
  unfold soft_row, out_of_bounds, between, ge_scalar, le_scalar.
  rewrite Hlo, Hhi.
  destruct (isnull (value r)) eqn:Hnull; simpl.
  - repeat split; try discriminate; reflexivity.
  - destruct ((slo <=? value r)%float && (value r <=? shi)%float) eqn:Hin; simpl.
    + repeat split; try discriminate; reflexivity.
    + repeat split; try discriminate.
      * destruct (String.eqb_spec (flags r) ""); [congruence | reflexivity].
      * apply (has_flag_flagged "SUSPECT" r). reflexivity.
Qed.

Lemma C5_soft_pass_witness :
  map value (htimeseries (_do_soft_limits (mk 100 0 (Some 90%float) (Some 10%float))
                            (mkState [mkRecord 0 95 ""; mkRecord 1 50 ""] [])))
  = [95%float; 50%float].
Proof.
  exact (proj1 (proj2 (C5_soft_pass (mk 100 0 (Some 90%float) (Some 10%float)) 10 90
                         (mkState [mkRecord 0 95 ""; mkRecord 1 50 ""] [])
                         0%nat (mkRecord 0 95 "") eq_refl eq_refl eq_refl))).
Defined.

(** ** RangeCheck: unset soft bounds (C6) *)

(** C6, on the code.  With a soft bound unset the comparison against it is
    False at every row, so the soft pass selects every non-missing row: the
    whole check is the hard pass followed by [SUSPECT] on every row that
    still has a value, not the hard pass alone. *)
Theorem C6_unset_soft_bounds_flag_every_value (self : t) (hts : series) :
  soft_lower_bound self = None \/ soft_upper_bound self = None ->
  run self hts
  = map (fun r => if isnull (value r) then r else flagged "SUSPECT" r) (hard_pass self hts).
Proof.
  intros H. rewrite run_rows. apply map_ext. intros r.
  unfold soft_row, out_of_bounds, between, ge_scalar, le_scalar.
  destruct H as [H|H]; rewrite H.
  - simpl. destruct (isnull (value r)); reflexivity.
  - destruct (soft_lower_bound self); simpl; rewrite ?andb_false_r;
      destruct (isnull (value r)); reflexivity.
Qed.

(** Hard bounds [[0, 100]], both soft bounds unset, one row of value 5
    without flags: the hard pass leaves the row alone and the whole check
    hands it back flagged [SUSPECT]. *)
Lemma C6_unset_soft_bounds_flag_every_value_witness :
  hard_pass (mk 100 0 None None) [mkRecord 0 5 ""] = [mkRecord 0 5 ""] /\
  run (mk 100 0 None None) [mkRecord 0 5 ""] = [mkRecord 0 5 "SUSPECT"].
Proof.
  split; [reflexivity|].
  exact (C6_unset_soft_bounds_flag_every_value (mk 100 0 None None) [mkRecord 0 5 ""]
           (or_introl eq_refl)).
Defined.

End RangeCheckProps.

(** ** Checks without a range check (C10) *)

(** C10, on the code.  With no range check stored, [objects.get] raises
    [DoesNotExist] before [check] is bound; the [except] clause then reads
    [check], and the method ends in [UnboundLocalError] for every series. *)
Theorem C10_checks_without_range_check_raises (hts : series) :
  Checks.process_timeseries (Checks.mkDatabase None) hts = Raise UnboundLocalError.
Proof. reflexivity. Qed.

(** With a range check stored the method returns the checked series. *)
Lemma checks_with_range_check (c : RangeCheck.t) (hts : series) :
  Checks.process_timeseries (Checks.mkDatabase (Some c)) hts = Ok (RangeCheck.run c hts).
Proof. reflexivity. Qed.

(** ** Aggregation: the empty source series (C7) *)

Module AggregationProps.

Import Aggregation.

(** C7, on the code.  On an empty source series the first statement of
    [process_timeseries], [self.htimeseries.data.index[-1]], raises
    [IndexError], whatever the configuration and whatever the libraries
    would answer: the pass fails instead of handing back an empty
    series. *)
Theorem C7_empty_source_series_raises (lib : pandas) (hag : haggregate) (self : t) :
  process_timeseries lib hag self [] = Raise IndexError.
Proof. reflexivity. Qed.

(** On a series with rows the first statement returns the last index
    entry. *)
Lemma index_last_app (data : series) (r : record) :
  index_last (data ++ [r]) = Ok (timestamp r).
Proof.
  induction data as [|a data IH]; [reflexivity|].
  simpl. destruct (data ++ [r]) eqn:E; [|exact IH].
  now destruct data.
Qed.

(** ** Aggregation: trimming the last record (C3, C9) *)

Lemma nth_error_removelast {A : Type} (l : list A) (i : nat) :
  (S i < List.length l)%nat -> nth_error (removelast l) i = nth_error l i.
Proof.
  revert i. induction l as [|a l IH]; intros i Hi; simpl in Hi; [lia|].
  destruct l as [|b l]; [simpl in Hi; lia|].
  destruct i as [|i]; [reflexivity|].
  change (removelast (a :: b :: l)) with (a :: removelast (b :: l)).
  simpl nth_error. apply IH. simpl in *. lia.
Qed.

Lemma length_removelast_cons {A : Type} (a : A) (l : list A) :
  S (List.length (removelast (a :: l))) = List.length (a :: l).
Proof.
  revert a. induction l as [|b l IH]; intros a; [reflexivity|].
  change (removelast (a :: b :: l)) with (a :: removelast (b :: l)).
  simpl. f_equal. apply IH.
Qed.

(** The decision of the trim, once [pd.Timedelta] has read the offset. *)
Lemma needs_trimming_eq (lib : pandas) (self : t) (source_end_date : Z)
      (r0 : record) (data : series) (td : timedelta) :
  Timedelta lib (resulting_timestamp_offset self) = LibOk td ->
  _last_target_record_needs_trimming lib self source_end_date (r0 :: data)
  = Ok (contains "MISS" (flags (last data r0))
        && timestamp_lt source_end_date (timestamp_add (timestamp (last data r0)) td)).
Proof.
  intros H. unfold _last_target_record_needs_trimming. now rewrite H.
Qed.

(** With an offset that [pd.Timedelta] reads as a duration, the last
    record of a non-empty output is dropped exactly when it carries
    [MISS] and the end of the source lies strictly before its timestamp
    plus the offset. *)
Lemma trim_with_duration (lib : pandas) (self : t) (source_end_date : Z)
      (r0 : record) (data : series) (d : Z) :
  Timedelta lib (resulting_timestamp_offset self) = LibOk (Td d) ->
  _trim_last_record_if_not_complete lib self source_end_date (r0 :: data)
  = Ok (if contains "MISS" (flags (last data r0))
           && (source_end_date <? timestamp (last data r0) + d)
        then removelast (r0 :: data) else r0 :: data).
Proof.
  intros H. unfold _trim_last_record_if_not_complete.
  rewrite (needs_trimming_eq lib self source_end_date r0 data (Td d) H).
  reflexivity.
Qed.

(** C3, on the code.  The offset field is blank by default and
    [pd.Timedelta] reads the empty string as [NaT]; the timestamp plus
    [NaT] is [NaT], no instant is before [NaT], and the last record is
    kept whatever its flags and however early the source ends. *)
Theorem C3_empty_offset_never_trims (lib : pandas) (self : t) (source_end_date : Z)
      (data : series) :
  resulting_timestamp_offset self = ""%string ->
  Timedelta lib ""%string = LibOk NaT ->
  _trim_last_record_if_not_complete lib self source_end_date data = Ok data.
Proof.
  intros Hoff Hnat. destruct data as [|r0 data]; [reflexivity|].
  unfold _trim_last_record_if_not_complete.
  rewrite (needs_trimming_eq lib self source_end_date r0 data NaT)
    by (now rewrite Hoff).
  simpl. now rewrite andb_false_r.
Qed.

(** Hourly output, source ending at 12:40: the record of 13:00 carries
    [MISS], the source ends before 13:00, and the record stays. *)
Lemma C3_empty_offset_never_trims_witness :
  let data := [mkRecord (720 * Minutes.minute) 6 ""; mkRecord (780 * Minutes.minute) 4 "MISS"] in
  contains "MISS" "MISS" = true /\
  (760 * Minutes.minute <? 780 * Minutes.minute + 0) = true /\
  _trim_last_record_if_not_complete Minutes.lib (mk "H" Sum 2 "")
    (760 * Minutes.minute) data = Ok data.
Proof.
  simpl. split; [reflexivity|]. split; [reflexivity|].
  exact (C3_empty_offset_never_trims Minutes.lib (mk "H" Sum 2 "") (760 * Minutes.minute)
           [mkRecord (720 * Minutes.minute) 6 ""; mkRecord (780 * Minutes.minute) 4 "MISS"]
           eq_refl eq_refl).
Defined.

(** C9.  Whenever [pd.Timedelta] reads the offset, the trim returns, and
    its result is the output series with at most its last record
    removed: every record before the last one stays in place unchanged,
    whatever flags the trailing records carry. *)
Theorem C9_trim_frame (lib : pandas) (self : t) (source_end_date : Z)
      (data : series) (td : timedelta) :
  Timedelta lib (resulting_timestamp_offset self) = LibOk td ->
  exists out,
    _trim_last_record_if_not_complete lib self source_end_date data = Ok out /\
    (out = data \/ (out = removelast data /\ S (List.length out) = List.length data)) /\
    (forall i, (S i < List.length data)%nat -> nth_error out i = nth_error data i).
Proof.
  intros H. destruct data as [|r0 data].
  - exists []. split; [reflexivity|]. split; [now left|]. intros i Hi. simpl in Hi. lia.
  - unfold _trim_last_record_if_not_complete.
    rewrite (needs_trimming_eq lib self source_end_date r0 data td H).
    cbn [bind].
    destruct (contains "MISS" (flags (last data r0))
              && timestamp_lt source_end_date (timestamp_add (timestamp (last data r0)) td)).
    + exists (removelast (r0 :: data)). split; [reflexivity|]. split.
      * right. split; [reflexivity | apply length_removelast_cons].
      * intros i Hi. now apply nth_error_removelast.
    + exists (r0 :: data). split; [reflexivity|]. split; [now left | reflexivity].
Qed.

(** Two trailing records flagged [MISS], offset of one minute, source
    ending at 12:40: only the record of 13:59 goes. *)
Lemma C9_trim_frame_witness :
  exists out,
    _trim_last_record_if_not_complete Minutes.lib (mk "H" Sum 2 "1min")
      (760 * Minutes.minute)
      [mkRecord (719 * Minutes.minute) 6 "";
       mkRecord (779 * Minutes.minute) 4 "MISS";
       mkRecord (839 * Minutes.minute) 1 "MISS"] = Ok out /\
    nth_error out 1 = Some (mkRecord (779 * Minutes.minute) 4 "MISS").
Proof.
  destruct (C9_trim_frame Minutes.lib (mk "H" Sum 2 "1min") (760 * Minutes.minute)
              [mkRecord (719 * Minutes.minute) 6 "";
               mkRecord (779 * Minutes.minute) 4 "MISS";
               mkRecord (839 * Minutes.minute) 1 "MISS"]
              (Td (1 * Minutes.minute)) eq_refl) as [out [H1 [_ H3]]].
  exists out. split; [exact H1|].
  rewrite (H3 1%nat); [reflexivity | simpl; lia].
Defined.

End AggregationProps.

(** ** Aggregation: the offset check of [save] (C8) *)

Module OffsetCheck.

Import Aggregation OffsetForms.

Lemma span_digits_spec (s : string) :
  s = (fst (span_digits s) ++ snd (span_digits s))%string /\
  all_digits (fst (span_digits s)) = true.
Proof.
  induction s as [|c s [IH1 IH2]]; simpl; [split; reflexivity|].
  destruct (isdigit c) eqn:Hc; simpl.
  - destruct (span_digits s) as [d rest]. simpl in *. split.
    + now rewrite <- IH1.
    + now rewrite Hc, IH2.
  - split; reflexivity.
Qed.

Lemma span_digits_app (ds rest : string) :
  all_digits ds = true ->
  (match rest with
   | EmptyString => True
   | String c _ => isdigit c = false
   end) ->
  span_digits (ds ++ rest) = (ds, rest).
Proof.
  intros Hds Hrest. induction ds as [|c ds IH]; simpl in *.
  - destruct rest as [|c rest]; [reflexivity|]. simpl. now rewrite Hrest.
  - apply andb_true_iff in Hds. destruct Hds as [Hc Hds].
    rewrite Hc, (IH Hds). reflexivity.
Qed.

Lemma dot_star_dollar_no_line_break (s : string) :
  no_line_break s = true -> dot_star_dollar s = Some s.
Proof.
  induction s as [|c s IH]; simpl; [reflexivity|].
  intros H. apply andb_true_iff in H. destruct H as [Hc Hs].
  destruct (Ascii.eqb c newline); [discriminate|].
  now rewrite (IH Hs).
Qed.

Lemma no_line_break_app (a b : string) :
  no_line_break (a ++ b) = no_line_break a && no_line_break b.
Proof.
  induction a as [|c a IH]; simpl; [reflexivity|].
  now rewrite IH, andb_assoc.
Qed.

Lemma all_digits_head (ds rest : string) :
  all_digits ds = true ->
  match (ds ++ String "m" rest)%string with
  | String "-"%char _ => False
  | _ => True
  end.
Proof.
  destruct ds as [|c ds]; simpl; [trivial|].
  intros H. apply andb_true_iff in H. destruct H as [Hc _].
  destruct c as [[] [] [] [] [] [] [] []]; try exact I; discriminate Hc.
Qed.

Lemma re_match_digits_min (ds : string) :
  all_digits ds = true ->
  re_match (ds ++ "min") = Some (""%string, ds, "min"%string).
Proof.
  intros Hds. unfold re_match.
  pose proof (all_digits_head ds "in" Hds) as Hhead.
  assert (Hsplit : (let '(sign, rest) :=
                      match (ds ++ "min")%string with
                      | String "-"%char s' => ("-"%string, s')
                      | _ => (""%string, (ds ++ "min")%string)
                      end in (sign, rest)) = (""%string, (ds ++ "min")%string)).
  { destruct (ds ++ "min")%string as [|c s']; [reflexivity|].
    destruct c as [[] [] [] [] [] [] [] []]; try reflexivity. contradiction. }
  destruct (match (ds ++ "min")%string with
            | String "-"%char s' => ("-"%string, s')
            | _ => (""%string, (ds ++ "min")%string)
            end) as [sign rest].
  injection Hsplit as -> ->.
  rewrite (span_digits_app ds "min" Hds) by reflexivity.
  reflexivity.
Qed.

Lemma re_match_minus_digits_min (ds : string) :
  all_digits ds = true ->
  re_match ("-" ++ ds ++ "min") = Some ("-"%string, ds, "min"%string).
Proof.
  intros Hds. unfold re_match. simpl.
  rewrite (span_digits_app ds "min" Hds) by reflexivity.
  reflexivity.
Qed.

(** On a string without a line break the match exists and its groups
    split the string. *)
Lemma re_match_split (s : string) :
  no_line_break s = true ->
  exists sign number unit_ : string,
    re_match s = Some (sign, number, unit_) /\
    s = (sign ++ number ++ unit_)%string /\
    (sign = ""%string \/ sign = "-"%string) /\
    all_digits number = true.
Proof.
  intros Hs. unfold re_match.
  assert (Hsign : exists sign rest : string,
             match s with
             | String "-"%char s' => ("-"%string, s')
             | _ => (""%string, s)
             end = (sign, rest) /\
             s = (sign ++ rest)%string /\ (sign = ""%string \/ sign = "-"%string)).
  { destruct s as [|c s']; [exists ""%string, ""%string; auto|].
    destruct c as [[] [] [] [] [] [] [] []];
      try (eexists ""%string, _; split; [reflexivity | split; [reflexivity | now left]]).
    exists "-"%string, s'. split; [reflexivity | split; [reflexivity | now right]]. }
  destruct Hsign as [sign [rest [E [Hsplit Hsg]]]]. rewrite E.
  destruct (span_digits_spec rest) as [Hrest Hnum].
  destruct (span_digits rest) as [number unit_]. simpl in Hrest, Hnum.
  assert (Hu : no_line_break unit_ = true).
  { rewrite Hsplit, Hrest, !no_line_break_app in Hs.
    apply andb_true_iff in Hs. destruct Hs as [_ Hs].
    apply andb_true_iff in Hs. tauto. }
  rewrite (dot_star_dollar_no_line_break unit_ Hu).
  exists sign, number, unit_. repeat split; try assumption.
  now rewrite Hsplit, Hrest.
Qed.

Lemma accepted_iff (s : string) :
  no_line_break s = true -> (accepted s = true <-> minutes_offset s).
Proof.
  intros Hs. split.
  - destruct (re_match_split s Hs) as [sign [number [unit_ [Hm [Hsplit [Hsg Hnum]]]]]].
    unfold accepted. rewrite Hm. intros Hacc.
    apply negb_true_iff, orb_false_iff in Hacc. destruct Hacc as [Hu Hsn].
    apply negb_false_iff, String.eqb_eq in Hu. subst unit_.
    exists sign, number. split; [exact Hsplit|]. split; [|exact Hnum].
    destruct Hsg as [->| ->]; [now left|]. right. split; [reflexivity|].
    simpl in Hsn. now apply String.eqb_neq.
  - intros [sign [ds [-> [Hsg Hds]]]]. unfold accepted.
    destruct Hsg as [->|[-> Hne]].
    + simpl append. rewrite (re_match_digits_min ds Hds). reflexivity.
    + rewrite (re_match_minus_digits_min ds Hds). simpl.
      apply String.eqb_neq in Hne. now rewrite Hne.
Qed.

Lemma check_nonempty_accepted (self : t) :
  no_line_break (resulting_timestamp_offset self) = true ->
  _check_nonempty_resulting_timestamp_offset self
  = if accepted (resulting_timestamp_offset self) then Ok tt else Raise IntegrityError.
Proof.
  intros Hs. unfold _check_nonempty_resulting_timestamp_offset, accepted.
  destruct (re_match_split _ Hs) as [sign [number [unit_ [Hm _]]]]. rewrite Hm.
  destruct (negb (String.eqb unit_ "min") || (String.eqb sign "-" && String.eqb number ""));
    reflexivity.
Qed.

Lemma minutes_offset_nonempty : ~ minutes_offset "".
Proof.
  intros [sign [ds [H _]]].
  destruct sign; destruct ds; discriminate H.
Qed.

Lemma save_outcome (self : t) (table : list t) :
  no_line_break (resulting_timestamp_offset self) = true ->
  save self table
  = if String.eqb (resulting_timestamp_offset self) "" then Ok (self :: table)
    else if accepted (resulting_timestamp_offset self) then Ok (self :: table)
         else Raise IntegrityError.
Proof.
  intros Hs. unfold save, _check_resulting_timestamp_offset.
  destruct (String.eqb (resulting_timestamp_offset self) ""); [reflexivity|].
  rewrite (check_nonempty_accepted self Hs).
  destruct (accepted (resulting_timestamp_offset self)); reflexivity.
Qed.

(** C8, as the code has it.  For an offset of ASCII characters without a
    line break: [save] raises [IntegrityError], before the row is stored
    and storing nothing, exactly when the offset is non-empty and is not an
    optional minus sign, digits and [min], the digits being dispensable
    only without the sign; it stores the row exactly when the offset is
    empty or of that form. *)
Theorem C8_save_checks_offset (self : t) (table : list t) :
  ascii_only (resulting_timestamp_offset self) = true ->
  no_line_break (resulting_timestamp_offset self) = true ->
  (save self table = Raise IntegrityError <->
   resulting_timestamp_offset self <> ""%string /\
   ~ minutes_offset (resulting_timestamp_offset self)) /\
  (save self table = Ok (self :: table) <->
   resulting_timestamp_offset self = ""%string \/
   minutes_offset (resulting_timestamp_offset self)).
Proof.
  intros _ Hs. rewrite (save_outcome self table Hs).
  pose proof (accepted_iff _ Hs) as Hacc.
  split.
  - destruct (String.eqb_spec (resulting_timestamp_offset self) "") as [E|E].
    + split; [discriminate | tauto].
    + destruct (accepted (resulting_timestamp_offset self)).
      * split; [discriminate|]. intros [_ H]. exfalso. apply H, Hacc. reflexivity.
      * split; [|reflexivity]. intros _. split; [exact E|].
        intros H. apply Hacc in H. discriminate.
  - destruct (String.eqb_spec (resulting_timestamp_offset self) "") as [E|E].
    + split; [now left | reflexivity].
    + destruct (accepted (resulting_timestamp_offset self)).
      * split; [|reflexivity]. intros _. right. now apply Hacc.
      * split; [discriminate|]. intros [H|H]; [contradiction|].
        apply Hacc in H. discriminate.
Qed.

Lemma C8_save_checks_offset_witness :
  save (mk "H" Sum 0 "-15min") [] = Ok [mk "H" Sum 0 "-15min"] /\
  save (mk "H" Sum 0 "1H") [] = Raise IntegrityError.
Proof.
  split.
  - apply (proj2 (C8_save_checks_offset (mk "H" Sum 0 "-15min") [] eq_refl eq_refl)).
    right. exists "-"%string, "15"%string.
    split; [reflexivity|]. split; [right; split; [reflexivity | discriminate] | reflexivity].
  - apply (proj1 (C8_save_checks_offset (mk "H" Sum 0 "1H") [] eq_refl eq_refl)).
    split; [discriminate|].
    intros H. apply (accepted_iff "1H" eq_refl) in H. discriminate H.
Defined.

(** C8 as worded fails on the offset [min].  It is not empty and holds no
    number, and [save] stores the row; and the configuration then fails in
    the pass, not at [save]: a [pd.Timedelta] that wants a number before
    the unit refuses the offset at the trim. *)
Lemma C8_counterexample :
  "min"%string <> ""%string /\
  ~ number_of_minutes "min" /\
  save (mk "H" Sum 0 "min") [] = Ok [mk "H" Sum 0 "min"] /\
  _trim_last_record_if_not_complete Minutes.lib (mk "H" Sum 0 "min") 0 [mkRecord 60 1 ""]
  = Raise (LibraryError "ValueError").
Proof.
  split; [discriminate|]. split; [|split; reflexivity].
  intros [sign [ds [H [Hsg [Hne _]]]]].
  destruct Hsg as [->| ->]; [|discriminate H].
  simpl in H. destruct ds as [|c1 [|c2 [|c3 [|c4 ds]]]];
    [now apply Hne | discriminate H .. | ].
  injection H as _ _ _ H. destruct ds; discriminate H.
Qed.

(** A line break is not covered by the theorem: before a final one [$]
    still matches and the offset is stored; elsewhere there is no match and
    reading the groups fails. *)
Example offset_with_line_break :
  save (mk "H" Sum 0 (String "1" (String "m" (String "i" (String "n" (String newline EmptyString)))))) []
  = Ok [mk "H" Sum 0 (String "1" (String "m" (String "i" (String "n" (String newline EmptyString)))))] /\
  save (mk "H" Sum 0 (String "1" (String newline "min"))) [] = Raise AttributeError.
Proof. split; reflexivity. Qed.

End OffsetCheck.

(** ** Aggregation: [min_count] and the window rule (C1) *)

Module MinCount.

Import Aggregation AggregatorSpec.

Lemma quot_exact_is_ceil (a b : Z) :
  0 <= a -> 0 < b -> a mod b = 0 -> Z.quot a b = ceil_div a b.
Proof.
  intros Ha Hb Hm. unfold ceil_div.
  rewrite Z.quot_div_nonneg by lia.
  rewrite (Z_div_zero_opp_full a b Hm). lia.
Qed.

Lemma quot_inexact_is_below_ceil (a b : Z) :
  0 <= a -> 0 < b -> a mod b <> 0 -> Z.quot a b = ceil_div a b - 1.
Proof.
  intros Ha Hb Hm. unfold ceil_div.
  rewrite Z.quot_div_nonneg by lia.
  rewrite (Z_div_nz_opp_full a b) by (lia || exact Hm). lia.
Qed.

Lemma min_count_eq (lib : pandas) (self : t) (source_step : option string)
      (target_step : string) (a b : Z) :
  Timedelta lib target_step = LibOk (Td a) ->
  to_offset lib source_step = LibOk (Some b) ->
  b <> 0 ->
  min_count lib self source_step target_step = Ok (Z.max (Z.quot a b - max_missing self) 1).
Proof.
  intros Ht Hs Hb. unfold min_count, _divide_target_step_by_source_step.
  rewrite Ht, Hs. simpl.
  destruct (Z.eqb_spec b 0); [contradiction | reflexivity].
Qed.

(** C1, as the code has it.  With a target step of [a] and a source step
    of [b] nanoseconds, [min_count] is the maximum of 1 and the quotient
    [a / b] cut towards zero, less [max_missing]; the quotient is the
    rounded-up one when the source step divides the target step and one
    less otherwise; this is the value [_aggregate_time_series] hands to
    [aggregate].  A window with exactly [min_count] non-missing values
    yields the reduction of these values, flagged [MISS] exactly when
    [min_count] is below the capacity of the window, that is when
    [max_missing] is at least 1 and the capacity at least 2; a window with
    fewer than [min_count] non-missing values, [min_count - 1] for one,
    yields a missing value, whatever flag such a window carries. *)
Theorem C1_min_count (lib : pandas) (self : t) (source_step : option string)
      (target_step : string) (a b : Z) :
  Timedelta lib target_step = LibOk (Td a) ->
  to_offset lib source_step = LibOk (Some b) ->
  0 <= a -> 0 < b ->
  let capacity := Z.quot a b in
  let mc := Z.max 1 (capacity - max_missing self) in
  min_count lib self source_step target_step = Ok mc /\
  (a mod b = 0 -> capacity = ceil_div a b) /\
  (a mod b <> 0 -> capacity = ceil_div a b - 1) /\
  (forall (hag : haggregate) (hts : series),
      infer_freq lib (map timestamp hts) = LibOk source_step ->
      _get_target_step self = Ok target_step ->
      _aggregate_time_series lib hag self hts
      = call (aggregate hag hts target_step (method self) mc
                (if String.eqb (resulting_timestamp_offset self) "" then None
                 else Some (resulting_timestamp_offset self)))) /\
  (forall (short_flag : string) (m : method_t) (window : list float),
      count window = mc ->
      aggregate_window short_flag m mc capacity window
      = (reduce m window,
         if (1 <? capacity) && (1 <=? max_missing self) then "MISS"%string else ""%string)) /\
  (forall (short_flag : string) (m : method_t) (window : list float),
      count window < mc ->
      fst (aggregate_window short_flag m mc capacity window) = nan) /\
  (forall (short_flag : string) (m : method_t) (window : list float),
      count window = mc - 1 ->
      fst (aggregate_window short_flag m mc capacity window) = nan).
Proof.
  intros Ht Hs Ha Hb capacity mc.
  assert (Hmc : min_count lib self source_step target_step = Ok mc).
  { rewrite (min_count_eq lib self source_step target_step a b Ht Hs) by lia.
    f_equal. subst mc capacity. lia. }
  assert (Hshort : forall (short_flag : string) (m : method_t) (window : list float),
             count window < mc ->
             fst (aggregate_window short_flag m mc capacity window) = nan).
  { intros sf m window Hc. unfold aggregate_window.
    destruct (count window <? 1); [reflexivity|].
    now rewrite (proj2 (Z.ltb_lt _ _) Hc). }
  split; [exact Hmc|].
  split; [intros Hm; now apply quot_exact_is_ceil|].
  split; [intros Hm; now apply quot_inexact_is_below_ceil|].
  split; [|split; [|split]].
  - intros hag hts Hf Hts. unfold _aggregate_time_series, _get_source_step.
    rewrite Hf. cbn [call bind]. rewrite Hts. cbn [bind]. rewrite Hmc. reflexivity.
  - intros sf m window Hc. unfold aggregate_window. rewrite Hc.
    assert (H1 : (mc <? 1) = false) by (apply Z.ltb_ge; subst mc; lia).
    rewrite H1, Z.ltb_irrefl. f_equal.
    assert (E : (mc <? capacity) = (1 <? capacity) && (1 <=? max_missing self)).
    { subst mc.
      destruct (Z.ltb_spec (Z.max 1 (capacity - max_missing self)) capacity),
               (Z.ltb_spec 1 capacity), (Z.leb_spec 1 (max_missing self));
        simpl; try reflexivity; lia. }
    now rewrite E.
  - exact Hshort.
  - intros sf m window Hc. apply Hshort. lia.
Qed.

(** Ten-minute source, hourly target, two records allowed to miss: four
    values of six are enough, and the mean of the four is flagged; three
    are not enough. *)
Lemma C1_min_count_witness :
  min_count Minutes.lib (mk "60min" Mean 2 "") (Some "10min"%string) "60min" = Ok 4 /\
  (forall short_flag : string,
      aggregate_window short_flag Mean 4 6 [1; 2; nan; nan; 3; 6]%float
      = (3%float, "MISS"%string)) /\
  (forall short_flag : string,
      fst (aggregate_window short_flag Mean 4 6 [1; 2; nan; nan; nan; 6]%float) = nan).
Proof.
  destruct (C1_min_count Minutes.lib (mk "60min" Mean 2 "") (Some "10min"%string) "60min"
              (60 * Minutes.minute) (10 * Minutes.minute) eq_refl eq_refl)
    as [H1 [_ [_ [_ [H2 [_ H3]]]]]]; [unfold Minutes.minute; lia .. |].
  split; [exact H1|]. split.
  - intros sf. exact (H2 sf Mean [1; 2; nan; nan; 3; 6]%float eq_refl).
  - intros sf. exact (H3 sf Mean [1; 2; nan; nan; nan; 6]%float eq_refl).
Defined.

(** C1 as worded fails twice.  A target step of 25 minutes over a source
    step of 10 gives [min_count = 2], not the rounded-up 3.  With no
    record allowed to miss, an hourly window over a ten-minute source
    holding exactly [min_count = 6] non-missing values is complete and is
    not flagged. *)
Lemma C1_counterexample :
  (min_count Minutes.lib (mk "25min" Mean 0 "") (Some "10min"%string) "25min" = Ok 2 /\
   Z.max 1 (ceil_div (25 * Minutes.minute) (10 * Minutes.minute) - 0) = 3) /\
  (min_count Minutes.lib (mk "60min" Sum 0 "") (Some "10min"%string) "60min" = Ok 6 /\
   count [1; 1; 1; 1; 1; 1]%float = 6 /\
   forall short_flag : string,
     aggregate_window short_flag Sum 6 (Z.quot (60 * Minutes.minute) (10 * Minutes.minute))
       [1; 1; 1; 1; 1; 1]%float = (6%float, ""%string)).
Proof. repeat split. Qed.

End MinCount.

(** ** The order of binary64 numbers *)

(** The comparisons of primitive floats, read through their specification
    on [spec_float]: what the proofs about searching a sorted array need. *)
Module FloatOrder.

Import SpecFloat FloatRank.

Lemma lexcmp_spec (p q : Z * Z * Z) :
  match lexcmp p q with
  | Lt => lexlt p q
  | Eq => p = q
  | Gt => lexlt q p
  end.
Proof.
  destruct p as [[k1 e1] m1], q as [[k2 e2] m2]. unfold lexcmp, lexlt.
  destruct (Z.compare_spec k1 k2); [|lia|lia].
  destruct (Z.compare_spec e1 e2); [|lia|lia].
  destruct (Z.compare_spec m1 m2); [congruence|lia|lia].
Qed.

Lemma lexcmp_Lt (p q : Z * Z * Z) : lexcmp p q = Lt <-> lexlt p q.
Proof.
  pose proof (lexcmp_spec p q) as H. split.
  - intros E. now rewrite E in H.
  - intros L. destruct (lexcmp p q); [|reflexivity|]; exfalso;
      destruct p as [[k1 e1] m1], q as [[k2 e2] m2]; unfold lexlt in *.
    + injection H as -> -> ->. lia.
    + lia.
Qed.

Lemma lexcmp_Eq (p q : Z * Z * Z) : lexcmp p q = Eq <-> p = q.
Proof.
  pose proof (lexcmp_spec p q) as H. split.
  - intros E. now rewrite E in H.
  - intros ->. destruct q as [[k e] m]. unfold lexcmp. now rewrite !Z.compare_refl.
Qed.

Lemma lexlt_trans (p q r : Z * Z * Z) : lexlt p q -> lexlt q r -> lexlt p r.
Proof.
  destruct p as [[k1 e1] m1], q as [[k2 e2] m2], r as [[k3 e3] m3].
  unfold lexlt. lia.
Qed.

Lemma lexlt_irrefl (p : Z * Z * Z) : ~ lexlt p p.
Proof. destruct p as [[k e] m]. unfold lexlt. lia. Qed.

Lemma SFcompare_rank (a b : spec_float) :
  is_nan_spec a = false -> is_nan_spec b = false ->
  SFcompare a b = Some (lexcmp (rank a) (rank b)).
Proof.
  destruct a as [sa|sa| |sa ma ea], b as [sb|sb| |sb mb eb]; simpl;
    intros Ha Hb; try discriminate;
    try (destruct sa; reflexivity);
    try (destruct sb; reflexivity);
    try (destruct sa, sb; reflexivity).
  change (Pos.compare_cont Eq ma mb) with (Pos.compare ma mb).
  destruct sa, sb; simpl; try reflexivity.
  rewrite Z.compare_opp, (Z.compare_antisym ea eb).
  destruct (ea ?= eb); reflexivity.
Qed.

Lemma SFcompare_nan (a b : spec_float) :
  is_nan_spec a = true \/ is_nan_spec b = true -> SFcompare a b = None.
Proof.
  destruct a, b; simpl; intros [H|H]; try discriminate; reflexivity.
Qed.

(** *** Primitive floats *)

Lemma ltb_iff (a b : float) :
  (a <? b)%float = true <->
  number a = true /\ number b = true /\ lexlt (rank (Prim2SF a)) (rank (Prim2SF b)).
Proof.
  rewrite FloatAxioms.ltb_spec. unfold SFltb, number.
  destruct (is_nan_spec (Prim2SF a)) eqn:Ha.
  { rewrite SFcompare_nan by now left. simpl. intuition discriminate. }
  destruct (is_nan_spec (Prim2SF b)) eqn:Hb.
  { rewrite SFcompare_nan by now right. simpl. intuition discriminate. }
  rewrite (SFcompare_rank _ _ Ha Hb). simpl.
  rewrite <- lexcmp_Lt.
  destruct (lexcmp (rank (Prim2SF a)) (rank (Prim2SF b))); intuition discriminate.
Qed.

Lemma eqb_iff (a b : float) :
  (a =? b)%float = true <->
  number a = true /\ number b = true /\ rank (Prim2SF a) = rank (Prim2SF b).
Proof.
  rewrite FloatAxioms.eqb_spec. unfold SFeqb, number.
  destruct (is_nan_spec (Prim2SF a)) eqn:Ha.
  { rewrite SFcompare_nan by now left. simpl. intuition discriminate. }
  destruct (is_nan_spec (Prim2SF b)) eqn:Hb.
  { rewrite SFcompare_nan by now right. simpl. intuition discriminate. }
  rewrite (SFcompare_rank _ _ Ha Hb). simpl.
  rewrite <- lexcmp_Eq.
  destruct (lexcmp (rank (Prim2SF a)) (rank (Prim2SF b))); intuition discriminate.
Qed.

Lemma leb_iff (a b : float) :
  (a <=? b)%float = true <->
  number a = true /\ number b = true /\
  (lexlt (rank (Prim2SF a)) (rank (Prim2SF b)) \/ rank (Prim2SF a) = rank (Prim2SF b)).
Proof.
  rewrite FloatAxioms.leb_spec. unfold SFleb, number.
  destruct (is_nan_spec (Prim2SF a)) eqn:Ha.
  { rewrite SFcompare_nan by now left. simpl. intuition discriminate. }
  destruct (is_nan_spec (Prim2SF b)) eqn:Hb.
  { rewrite SFcompare_nan by now right. simpl. intuition discriminate. }
  rewrite (SFcompare_rank _ _ Ha Hb). simpl.
  rewrite <- lexcmp_Lt, <- lexcmp_Eq.
  destruct (lexcmp (rank (Prim2SF a)) (rank (Prim2SF b))); intuition discriminate.
Qed.

Lemma number_is_nan (a : float) : number a = negb (is_nan a).
Proof.
  unfold is_nan. rewrite negb_involutive.
  destruct (a =? a)%float eqn:E.
  - now apply eqb_iff in E.
  - destruct (number a) eqn:N; [|reflexivity].
    assert (H : (a =? a)%float = true) by (apply eqb_iff; auto).
    congruence.
Qed.


Lemma leb_numbers (a b : float) :
  (a <=? b)%float = true -> is_nan a = false /\ is_nan b = false.
Proof.
  intros H. apply leb_iff in H. destruct H as [Ha [Hb _]].
  rewrite number_is_nan in Ha, Hb. split; now apply negb_true_iff.
Qed.


Lemma ltb_irrefl (a : float) : (a <? a)%float = false.
Proof.
  destruct (a <? a)%float eqn:E; [|reflexivity].
  apply ltb_iff in E. destruct E as [_ [_ E]]. now apply lexlt_irrefl in E.
Qed.

Lemma ltb_leb (a b : float) : (a <? b)%float = true -> (a <=? b)%float = true.
Proof. rewrite ltb_iff, leb_iff. tauto. Qed.

Lemma eqb_leb (a b : float) : (a =? b)%float = true -> (a <=? b)%float = true.
Proof. rewrite eqb_iff, leb_iff. tauto. Qed.

Lemma ltb_not_leb (a b : float) : (a <? b)%float = true -> (b <=? a)%float = false.
Proof.
  intros H. destruct (b <=? a)%float eqn:E; [|reflexivity].
  apply ltb_iff in H. apply leb_iff in E.
  destruct H as [_ [_ H]], E as [_ [_ [E|E]]].
  - exfalso. apply (lexlt_irrefl (rank (Prim2SF a))). eapply lexlt_trans; eassumption.
  - rewrite E in H. now apply lexlt_irrefl in H.
Qed.



Lemma leb_trans (a b c : float) :
  (a <=? b)%float = true -> (b <=? c)%float = true -> (a <=? c)%float = true.
Proof.
  rewrite !leb_iff. intros [Ha [Hb [H1|H1]]] [_ [Hc [H2|H2]]];
    repeat split; try assumption.
  - left. eapply lexlt_trans; eassumption.
  - left. now rewrite <- H2.
  - left. now rewrite H1.
  - right. congruence.
Qed.

Lemma ltb_leb_trans (a b c : float) :
  (a <? b)%float = true -> (b <=? c)%float = true -> (a <? c)%float = true.
Proof.
  rewrite !ltb_iff, leb_iff. intros [Ha [Hb H1]] [_ [Hc [H2|H2]]];
    repeat split; try assumption.
  - eapply lexlt_trans; eassumption.
  - now rewrite <- H2.
Qed.

Lemma leb_ltb_trans (a b c : float) :
  (a <=? b)%float = true -> (b <? c)%float = true -> (a <? c)%float = true.
Proof.
  rewrite !ltb_iff, leb_iff. intros [Ha [Hb [H1|H1]]] [_ [Hc H2]];
    repeat split; try assumption.
  - eapply lexlt_trans; eassumption.
  - now rewrite H1.
Qed.

Lemma ltb_trans (a b c : float) :
  (a <? b)%float = true -> (b <? c)%float = true -> (a <? c)%float = true.
Proof.
  intros H1 H2. eapply ltb_leb_trans; [eassumption | now apply ltb_leb].
Qed.

End FloatOrder.

(** ** numpy.interp on ascending sample points *)

Module NumPyFacts.

Import NumPy FloatOrder.

Lemma ascending_tail (a : float) (xs : list float) :
  ascending (a :: xs) = true -> ascending xs = true.
Proof.
  destruct xs as [|b xs]; [reflexivity|].
  simpl. intros H. apply andb_true_iff in H. tauto.
Qed.

Lemma ascending_head_lt (a : float) (xs : list float) (b : float) :
  ascending (a :: xs) = true -> In b xs -> (a <? b)%float = true.
Proof.
  revert a. induction xs as [|c xs IH]; intros a H Hin; [contradiction|].
  simpl in H. apply andb_true_iff in H. destruct H as [Hac Hxs].
  destruct Hin as [<-|Hin]; [exact Hac|].
  eapply ltb_trans; [exact Hac | apply IH; assumption].
Qed.

















End NumPyFacts.

(** ** CurveInterpolation (C4) *)

Module CurveInterpolationProps.

Import NumPy NumPyFacts CurveInterpolation.

Lemma insert_by_perm {A : Type} (le : A -> A -> bool) (a : A) (l : list A) :
  Permutation (insert_by le a l) (a :: l).
Proof.
  induction l as [|b l IH]; simpl; [apply Permutation_refl|].
  destruct (le a b); [apply Permutation_refl|].
  eapply perm_trans; [apply perm_skip, IH | apply perm_swap].
Qed.

Lemma order_by_perm {A : Type} (le : A -> A -> bool) (l : list A) :
  Permutation (order_by le l) l.
Proof.
  induction l as [|a l IH]; simpl; [apply perm_nil|].
  eapply perm_trans; [apply insert_by_perm | now apply perm_skip].
Qed.

Lemma filter_perm {A : Type} (f : A -> bool) (l l' : list A) :
  Permutation l l' -> Permutation (filter f l) (filter f l').
Proof.
  induction 1 as [|a l l' _ IH|a b l|l l' l'' _ IH1 _ IH2]; simpl.
  - apply perm_nil.
  - destruct (f a); [now apply perm_skip | exact IH].
  - destruct (f a), (f b); try apply Permutation_refl. apply perm_swap.
  - eapply perm_trans; eassumption.
Qed.

Lemma get_curve_lengths (period : CurvePeriod) :
  List.length (fst (_get_curve period)) = List.length (curvepoint_set period) /\
  List.length (snd (_get_curve period)) = List.length (curvepoint_set period).
Proof.
  unfold _get_curve. simpl. rewrite !length_map.
  split; apply Permutation_length, order_by_perm.
Qed.

Lemma loc_assign_rows (f : record -> bool) (g : float -> float) (d : series) :
  loc_assign (map f d) (map g (map value (filter f d))) d
  = map (fun r => if f r then set_value r (g (value r)) else r) d.
Proof.
  induction d as [|r d IH]; simpl; [reflexivity|].
  destruct (f r); simpl; now rewrite IH.
Qed.

Lemma process_period_rows (timeseries : series) (period : CurvePeriod) :
  curvepoint_set period <> [] ->
  process_period timeseries period = Ok (map (apply_period period) timeseries).
Proof.
  intros Hne. unfold process_period.
  destruct (get_curve_lengths period) as [Hx Hy].
  destruct (_get_curve period) as [xs ys] eqn:E. simpl in Hx, Hy.
  unfold interp.
  assert (Hlen : List.length (curvepoint_set period) <> 0%nat).
  { destruct (curvepoint_set period); [congruence | discriminate]. }
  replace (Nat.eqb (List.length xs) 0) with false
    by (symmetry; apply Nat.eqb_neq; lia).
  replace (Nat.eqb (List.length ys) (List.length xs)) with true
    by (symmetry; apply Nat.eqb_eq; lia).
  cbn [negb call bind].
  rewrite (loc_assign_rows (in_slice (start_date period) (end_date period))
             (fun v => interp_value v xs ys nan nan)).
  rewrite loc_update_map. f_equal. apply map_ext. intros r.
  unfold apply_period, covers, in_slice. rewrite E. simpl.
  destruct ((midnight (start_date period) <=? timestamp r)
            && (timestamp r <=? midnight (end_date period)));
    reflexivity.
Qed.

Lemma process_periods_rows (periods : list CurvePeriod) (timeseries : series) :
  (forall q, In q periods -> curvepoint_set q <> []) ->
  process_periods periods timeseries
  = Ok (map (fun r => fold_left (fun r q => apply_period q r) periods r) timeseries).
Proof.
  revert timeseries. induction periods as [|q periods IH]; intros timeseries Hne; simpl.
  - now rewrite map_id.
  - rewrite process_period_rows by (apply Hne; now left). simpl.
    rewrite IH by (intros q' Hq'; apply Hne; now right).
    now rewrite map_map.
Qed.

Lemma apply_period_timestamp (period : CurvePeriod) (r : record) :
  timestamp (apply_period period r) = timestamp r.
Proof. unfold apply_period. destruct (covers _ _); reflexivity. Qed.

Lemma fold_uncovered (periods : list CurvePeriod) (r : record) :
  filter (covers (timestamp r)) periods = [] ->
  fold_left (fun r q => apply_period q r) periods r = r.
Proof.
  revert r. induction periods as [|q periods IH]; intros r H; [reflexivity|].
  simpl in *. destruct (covers (timestamp r) q) eqn:E; [discriminate|].
  unfold apply_period at 2. rewrite E. now apply IH.
Qed.

Lemma fold_covered_once (periods : list CurvePeriod) (period : CurvePeriod) (r : record) :
  filter (covers (timestamp r)) periods = [period] ->
  fold_left (fun r q => apply_period q r) periods r = apply_period period r.
Proof.
  revert r. induction periods as [|q periods IH]; intros r H; [discriminate|].
  simpl in *. destruct (covers (timestamp r) q) eqn:E.
  - injection H as -> H. apply fold_uncovered.
    now rewrite apply_period_timestamp.
  - unfold apply_period at 2. rewrite E. now apply IH.
Qed.




(** The example of the specification, and a row after the period. *)
Example curve_example :
  process_timeseries
    (mk [mkPeriod 0 100 [mkPoint 10 100; mkPoint 0 0]])
    [mkRecord 10 5 "RANGE"; mkRecord 20 (-1) ""; mkRecord (midnight 101) 7 "X"]
  = Ok [mkRecord 10 50 ""; mkRecord 20 nan ""; mkRecord (midnight 101) 7 "X"].
Proof. reflexivity. Qed.

End CurveInterpolationProps.

(** * Further properties *)

(** ** RangeCheck: the two passes together *)

Lemma prefix_app (a b : string) : prefix a (a ++ b) = true.
Proof.
  induction a as [|c a IH]; simpl; [now destruct b|].
  destruct (ascii_dec c c); [exact IH | congruence].
Qed.

Module RangeCheckMore.

Import RangeCheck RangeCheckRows RangeCheckFacts FloatOrder.

Lemma flagged_flags (flag : string) (r : record) :
  exists suffix : string, flags (flagged flag r) = (flags r ++ suffix)%string.
Proof.
  unfold flagged. simpl. destruct (String.eqb (flags r) "").
  - now exists flag.
  - exists (" " ++ flag)%string. now rewrite string_app_assoc.
Qed.

Lemma hard_row_again (self : t) (r : record) :
  hard_row self (hard_row self r) = hard_row self r.
Proof.
  unfold hard_row at 2 3.
  destruct (out_of_bounds _ _ r) eqn:E.
  - reflexivity.
  - unfold hard_row. now rewrite E.
Qed.

(** X1.  The hard pass run on its own result changes nothing: what it removed
    is missing and what it kept is within the bounds. *)
Theorem hard_pass_idempotent (self : t) (hts : series) :
  hard_pass self (hard_pass self hts) = hard_pass self hts.
Proof.
  rewrite !hard_pass_rows, map_map. apply map_ext. intros r. apply hard_row_again.
Qed.

(** X2.  The whole check keeps the rows, their order and their timestamps;
    each value is kept or becomes missing; the flags of a row only grow:
    the input flags are a prefix of the output flags. *)
Theorem check_frame (self : t) (hts : series) (i : nat) (r : record) :
  nth_error hts i = Some r ->
  map timestamp (run self hts) = map timestamp hts /\
  exists r',
    nth_error (run self hts) i = Some r' /\
    (value r' = value r \/ isnull (value r') = true) /\
    prefix (flags r) (flags r') = true.
Proof.
  intros Hr. rewrite run_rows, hard_pass_rows. split.
  { rewrite !map_map. apply map_ext. intros a.
    transitivity (timestamp (hard_row self a)).
    - unfold soft_row. destruct (out_of_bounds _ _ (hard_row self a)); reflexivity.
    - unfold hard_row. destruct (out_of_bounds _ _ a); reflexivity. }
  exists (soft_row self (hard_row self r)).
  split; [apply map_nth_error; now apply map_nth_error|].
  assert (Hh : (value (hard_row self r) = value r \/ isnull (value (hard_row self r)) = true) /\
               exists s1, flags (hard_row self r) = (flags r ++ s1)%string).
  { unfold hard_row. destruct (out_of_bounds _ _ r).
    - split; [now right|]. apply (flagged_flags "RANGE" (set_value r nan)).
    - split; [now left|]. exists ""%string.
      clear. induction (flags r) as [|c s IH]; simpl; [reflexivity | now rewrite <- IH]. }
  destruct Hh as [Hv [s1 Hf]].
  unfold soft_row. destruct (out_of_bounds _ _ (hard_row self r)).
  - split; [exact Hv|]. destruct (flagged_flags "SUSPECT" (hard_row self r)) as [s2 Hs2].
    rewrite Hs2, Hf, string_app_assoc. apply prefix_app.
  - split; [exact Hv|]. rewrite Hf. apply prefix_app.
Qed.

Lemma check_frame_witness :
  exists r',
    nth_error (run (mk 100 0 (Some 90%float) (Some 10%float))
                 [mkRecord 0 95 "X"; mkRecord 1 150 ""]) 0 = Some r' /\
    prefix "X" (flags r') = true.
Proof.
  destruct (check_frame (mk 100 0 (Some 90%float) (Some 10%float))
              [mkRecord 0 95 "X"; mkRecord 1 150 ""] 0%nat (mkRecord 0 95 "X") eq_refl)
    as [_ [r' [H1 [_ H2]]]].
  exists r'. split; [exact H1 | exact H2].
Defined.

(** X3.  A value the hard pass removes is out of reach of the soft pass: the
    row ends with a missing value and [RANGE] added, and never gains
    [SUSPECT], whatever the soft bounds are. *)
Theorem removed_value_never_suspect (self : t) (hts : series) (i : nat) (r : record) :
  nth_error hts i = Some r ->
  isnull (value r) = false ->
  ((lower_bound self <=? value r)%float && (value r <=? upper_bound self)%float) = false ->
  nth_error (run self hts) i = Some (flagged "RANGE" (set_value r nan)).
Proof.
  intros Hr Hn Hb. rewrite run_rows, hard_pass_rows.
  rewrite (map_nth_error (soft_row self) _ _ (map_nth_error (hard_row self) _ _ Hr)). f_equal.
  unfold hard_row, out_of_bounds, between, ge_scalar, le_scalar.
  rewrite Hn, Hb. simpl. unfold soft_row, out_of_bounds. reflexivity.
Qed.

Lemma removed_value_never_suspect_witness :
  nth_error (run (mk 100 0 (Some 90%float) (Some 10%float)) [mkRecord 0 150 ""]) 0
  = Some (mkRecord 0 nan "RANGE").
Proof.
  exact (removed_value_never_suspect (mk 100 0 (Some 90%float) (Some 10%float))
           [mkRecord 0 150 ""] 0%nat (mkRecord 0 150 "") eq_refl eq_refl eq_refl).
Defined.

(** X4.  Hard bounds that bound nothing, one of them NaN or the upper one below
    the lower one, remove every non-missing value. *)
Theorem degenerate_bounds_remove_everything (self : t) (hts : series) (i : nat) (r : record) :
  is_nan (lower_bound self) = true \/ is_nan (upper_bound self) = true \/
  (upper_bound self <? lower_bound self)%float = true ->
  nth_error hts i = Some r ->
  isnull (value r) = false ->
  nth_error (hard_pass self hts) i = Some (flagged "RANGE" (set_value r nan)).
Proof.
  intros Hdeg Hr Hn. rewrite hard_pass_rows, (map_nth_error _ _ _ Hr). f_equal.
  unfold hard_row, out_of_bounds, between, ge_scalar, le_scalar. rewrite Hn.
  destruct ((lower_bound self <=? value r)%float) eqn:H1;
    destruct ((value r <=? upper_bound self)%float) eqn:H2; try reflexivity.
  exfalso.
  pose proof (leb_trans _ _ _ H1 H2) as H3.
  destruct (leb_numbers _ _ H3) as [Hlo Hhi].
  destruct Hdeg as [H|[H|H]]; try congruence.
  apply ltb_not_leb in H. congruence.
Qed.

Lemma degenerate_bounds_remove_everything_witness :
  nth_error (hard_pass (mk 0 100 None None) [mkRecord 0 50 ""]) 0
  = Some (mkRecord 0 nan "RANGE").
Proof.
  exact (degenerate_bounds_remove_everything (mk 0 100 None None) [mkRecord 0 50 ""]
           0%nat (mkRecord 0 50 "") (or_intror (or_intror eq_refl)) eq_refl eq_refl).
Defined.

(** X5.  Soft bounds that enclose the hard bounds flag nothing: the whole
    check is the hard pass. *)
Theorem enclosing_soft_bounds_flag_nothing (self : t) (slo shi : float) (hts : series) :
  soft_lower_bound self = Some slo ->
  soft_upper_bound self = Some shi ->
  (slo <=? lower_bound self)%float = true ->
  (upper_bound self <=? shi)%float = true ->
  run self hts = hard_pass self hts.
Proof.
  intros Hlo Hhi H1 H2. rewrite run_rows, hard_pass_rows, map_map.
  apply map_ext. intros r.
  unfold soft_row, out_of_bounds, between, ge_scalar, le_scalar. rewrite Hlo, Hhi.
  unfold hard_row, out_of_bounds, between, ge_scalar, le_scalar.
  destruct (isnull (value r)) eqn:Hn; simpl.
  - rewrite Hn. reflexivity.
  - destruct ((lower_bound self <=? value r)%float) eqn:Ha;
      destruct ((value r <=? upper_bound self)%float) eqn:Hb; simpl; try reflexivity.
    rewrite Hn, (leb_trans _ _ _ H1 Ha), (leb_trans _ _ _ Hb H2). reflexivity.
Qed.

Lemma enclosing_soft_bounds_flag_nothing_witness :
  run (mk 100 0 (Some 200%float) (Some (-5)%float)) [mkRecord 0 95 ""; mkRecord 1 150 ""]
  = hard_pass (mk 100 0 (Some 200%float) (Some (-5)%float)) [mkRecord 0 95 ""; mkRecord 1 150 ""].
Proof.
  exact (enclosing_soft_bounds_flag_nothing (mk 100 0 (Some 200%float) (Some (-5)%float))
           (-5) 200 [mkRecord 0 95 ""; mkRecord 1 150 ""] eq_refl eq_refl eq_refl eq_refl).
Defined.

End RangeCheckMore.

(** ** The order of binary64 numbers is total on numbers *)

Module FloatTotal.

Import SpecFloat FloatRank FloatOrder.

Lemma number_of_not_nan (a : float) : is_nan a = false -> number a = true.
Proof. intros H. now rewrite number_is_nan, H. Qed.

Lemma leb_total (a b : float) :
  is_nan a = false -> is_nan b = false ->
  (a <=? b)%float = false -> (b <? a)%float = true.
Proof.
  intros Ha Hb H. apply number_of_not_nan in Ha, Hb.
  apply ltb_iff. repeat split; try assumption.
  pose proof (lexcmp_spec (rank (Prim2SF a)) (rank (Prim2SF b))) as Hs.
  destruct (lexcmp (rank (Prim2SF a)) (rank (Prim2SF b))).
  - assert (E : (a <=? b)%float = true) by (apply leb_iff; auto). congruence.
  - assert (E : (a <=? b)%float = true) by (apply leb_iff; auto). congruence.
  - exact Hs.
Qed.

Lemma leb_neq_ltb (a b : float) :
  (a <=? b)%float = true -> (a =? b)%float = false -> (a <? b)%float = true.
Proof.
  intros H E. apply leb_iff in H. destruct H as [Ha [Hb [H|H]]].
  - apply ltb_iff. auto.
  - assert (E' : (a =? b)%float = true) by (apply eqb_iff; auto). congruence.
Qed.

End FloatTotal.

(** ** CurvePeriod: the curve handed to [np.interp] *)

Module CurveOrder.

Import NumPy CurveInterpolation CurveInterpolationProps FloatOrder FloatTotal.

Definition by_x (p q : CurvePoint) : bool := (x p <=? x q)%float.

Lemma nondecreasing_cons (a : float) (xs : list float) :
  nondecreasing (a :: xs) = true ->
  nondecreasing xs = true.
Proof.
  destruct xs as [|b xs]; [reflexivity|]. simpl.
  intros H. apply andb_true_iff in H. tauto.
Qed.

Lemma insert_nondecreasing_from (m : float) (a : CurvePoint) (l : list CurvePoint) :
  is_nan (x a) = false ->
  (forall p, In p l -> is_nan (x p) = false) ->
  (m <=? x a)%float = true ->
  nondecreasing (m :: map x l) = true ->
  nondecreasing (m :: map x (insert_by by_x a l)) = true.
Proof.
  intros Ha. revert m. induction l as [|b l IH]; intros m Hl Hm Hs.
  - simpl. now rewrite Hm.
  - cbn [insert_by]. destruct (by_x a b) eqn:E; unfold by_x in E.
    + cbn [map nondecreasing] in Hs |- *.
      apply andb_true_iff in Hs. destruct Hs as [_ Hs].
      now rewrite Hm, E.
    + cbn [map] in Hs |- *.
      change (((m <=? x b)%float && nondecreasing (x b :: map x (insert_by by_x a l))) = true).
      change (((m <=? x b)%float && nondecreasing (x b :: map x l)) = true) in Hs.
      apply andb_true_iff in Hs. destruct Hs as [Hmb Hs].
      rewrite Hmb. apply IH.
      * intros p Hp. apply Hl. now right.
      * apply ltb_leb, leb_total; [exact Ha | apply Hl; now left | exact E].
      * exact Hs.
Qed.

Lemma insert_nondecreasing (a : CurvePoint) (l : list CurvePoint) :
  is_nan (x a) = false ->
  (forall p, In p l -> is_nan (x p) = false) ->
  nondecreasing (map x l) = true ->
  nondecreasing (map x (insert_by by_x a l)) = true.
Proof.
  intros Ha Hl Hs. destruct l as [|b l]; [reflexivity|].
  cbn [insert_by]. destruct (by_x a b) eqn:E; unfold by_x in E.
  - cbn [map nondecreasing] in Hs |- *. now rewrite E.
  - cbn [map]. apply insert_nondecreasing_from.
    + exact Ha.
    + intros p Hp. apply Hl. now right.
    + apply ltb_leb, leb_total; [exact Ha | apply Hl; now left | exact E].
    + exact Hs.
Qed.

Lemma order_by_nondecreasing (l : list CurvePoint) :
  (forall p, In p l -> is_nan (x p) = false) ->
  nondecreasing (map x (order_by by_x l)) = true.
Proof.
  induction l as [|a l IH]; intros Hl; [reflexivity|].
  simpl. apply insert_nondecreasing.
  - apply Hl. now left.
  - intros p Hp. apply Hl. right.
    eapply Permutation_in; [apply order_by_perm | exact Hp].
  - apply IH. intros p Hp. apply Hl. now right.
Qed.

(** X6.  When no [x] is NaN, [_get_curve] hands over the stored points, each
    [x] beside its [y], in non-descending order of [x]. *)
Theorem get_curve_sorted (period : CurvePeriod) :
  (forall p, In p (curvepoint_set period) -> is_nan (x p) = false) ->
  nondecreasing (fst (_get_curve period)) = true /\
  exists points : list CurvePoint,
    Permutation points (curvepoint_set period) /\
    fst (_get_curve period) = map x points /\
    snd (_get_curve period) = map y points.
Proof.
  intros H. split.
  - apply (order_by_nondecreasing _ H).
  - exists (order_by by_x (curvepoint_set period)).
    split; [apply order_by_perm | split; reflexivity].
Qed.

Lemma get_curve_sorted_witness :
  nondecreasing (fst (_get_curve (mkPeriod 0 100 [mkPoint 10 100; mkPoint 0 0; mkPoint 5 20])))
  = true.
Proof.
  apply (get_curve_sorted (mkPeriod 0 100 [mkPoint 10 100; mkPoint 0 0; mkPoint 5 20])).
  intros p [<-|[<-|[<-|[]]]]; reflexivity.
Defined.

Lemma strictly_ascending (l : list CurvePoint) :
  NoDup l ->
  (forall p q, In p l -> In q l -> (x p =? x q)%float = true -> p = q) ->
  nondecreasing (map x l) = true ->
  ascending (map x l) = true.
Proof.
  induction l as [|a l IH]; intros Hnd Hdist Hs; [reflexivity|].
  destruct l as [|b l]; [reflexivity|].
  change (((x a <? x b)%float && ascending (map x (b :: l))) = true).
  simpl in Hs. apply andb_true_iff in Hs. destruct Hs as [Hab Hs].
  apply andb_true_iff. split.
  - apply leb_neq_ltb; [exact Hab|].
    destruct (x a =? x b)%float eqn:E; [|reflexivity].
    exfalso. apply Hdist in E; [|now left | right; now left].
    inversion Hnd as [|? ? Hnotin _]. apply Hnotin. subst. now left.
  - apply IH.
    + now inversion Hnd.
    + intros p q Hp Hq. apply Hdist; now right.
    + exact Hs.
Qed.

(** X7.  When the stored points are distinct rows, no [x] is NaN and no two
    points share an [x], the [x] handed to [np.interp] are strictly
    ascending. *)
Theorem get_curve_ascending (period : CurvePeriod) :
  NoDup (curvepoint_set period) ->
  (forall p, In p (curvepoint_set period) -> is_nan (x p) = false) ->
  (forall p q, In p (curvepoint_set period) -> In q (curvepoint_set period) ->
               (x p =? x q)%float = true -> p = q) ->
  ascending (fst (_get_curve period)) = true.
Proof.
  intros Hnd Hnum Hdist.
  pose proof (order_by_perm by_x (curvepoint_set period)) as Hperm.
  apply strictly_ascending.
  - eapply Permutation_NoDup; [apply Permutation_sym, Hperm | exact Hnd].
  - intros p q Hp Hq. apply Hdist; eapply Permutation_in; eassumption.
  - apply (order_by_nondecreasing _ Hnum).
Qed.

Lemma get_curve_ascending_witness :
  ascending (fst (_get_curve (mkPeriod 0 100 [mkPoint 10 100; mkPoint 0 0]))) = true.
Proof.
  apply (get_curve_ascending (mkPeriod 0 100 [mkPoint 10 100; mkPoint 0 0])).
  - constructor; [intros [H|[]]; discriminate H|].
    constructor; [intros []|constructor].
  - intros p [<-|[<-|[]]]; reflexivity.
  - intros p q [<-|[<-|[]]] [<-|[<-|[]]] H; try reflexivity; discriminate H.
Defined.

End CurveOrder.

(** ** CurveInterpolation: rows, periods and failures *)

Module CurveInterpolationMore.

Import NumPy CurveInterpolation CurveInterpolationProps.

Lemma fold_timestamp (periods : list CurvePeriod) (r : record) :
  timestamp (fold_left (fun r q => apply_period q r) periods r) = timestamp r.
Proof.
  revert r. induction periods as [|q periods IH]; intros r; [reflexivity|].
  simpl. now rewrite IH, apply_period_timestamp.
Qed.

Lemma sorted_periods_have_points (self : t) :
  (forall q, In q (curveperiod_set self) -> curvepoint_set q <> []) ->
  forall q,
    In q (order_by (fun p q => start_date p <=? start_date q) (curveperiod_set self)) ->
    curvepoint_set q <> [].
Proof.
  intros H q Hq. apply H. eapply Permutation_in; [apply order_by_perm | exact Hq].
Qed.

(** X8.  When every period has points the pass returns, and the result has the
    rows of the input in their order, each with its timestamp. *)
Theorem curve_pass_keeps_timestamps (self : t) (hts : series) :
  (forall q, In q (curveperiod_set self) -> curvepoint_set q <> []) ->
  exists out : series,
    process_timeseries self hts = Ok out /\
    map timestamp out = map timestamp hts.
Proof.
  intros H. eexists. split.
  - apply process_periods_rows, sorted_periods_have_points, H.
  - rewrite map_map. apply map_ext. intros r. apply fold_timestamp.
Qed.

Lemma curve_pass_keeps_timestamps_witness :
  exists out : series,
    process_timeseries (mk [mkPeriod 0 100 [mkPoint 10 100; mkPoint 0 0]])
      [mkRecord 10 5 "RANGE"; mkRecord 200 7 "X"] = Ok out /\
    map timestamp out = [10; 200].
Proof.
  apply (curve_pass_keeps_timestamps (mk [mkPeriod 0 100 [mkPoint 10 100; mkPoint 0 0]])
           [mkRecord 10 5 "RANGE"; mkRecord 200 7 "X"]).
  intros q [<-|[]]. discriminate.
Defined.

(** X9.  A row whose timestamp no period covers comes out as it went in, value
    and flags. *)
Theorem uncovered_row_unchanged (self : t) (hts : series) (i : nat) (r : record) :
  (forall q, In q (curveperiod_set self) -> curvepoint_set q <> []) ->
  filter (covers (timestamp r)) (curveperiod_set self) = [] ->
  nth_error hts i = Some r ->
  exists out : series,
    process_timeseries self hts = Ok out /\ nth_error out i = Some r.
Proof.
  intros H Hcov Hr. eexists. split.
  - apply process_periods_rows, sorted_periods_have_points, H.
  - rewrite (map_nth_error _ _ _ Hr). f_equal. apply fold_uncovered.
    apply Permutation_nil. rewrite <- Hcov.
    apply Permutation_sym, filter_perm, order_by_perm.
Qed.

Lemma uncovered_row_unchanged_witness :
  exists out : series,
    process_timeseries (mk [mkPeriod 0 100 [mkPoint 10 100; mkPoint 0 0]])
      [mkRecord 10 5 "RANGE"; mkRecord (midnight 100 + 1) 7 "X"] = Ok out /\
    nth_error out 1 = Some (mkRecord (midnight 100 + 1) 7 "X").
Proof.
  apply (uncovered_row_unchanged (mk [mkPeriod 0 100 [mkPoint 10 100; mkPoint 0 0]])
           [mkRecord 10 5 "RANGE"; mkRecord (midnight 100 + 1) 7 "X"] 1%nat
           (mkRecord (midnight 100 + 1) 7 "X")).
  - intros q [<-|[]]. discriminate.
  - reflexivity.
  - reflexivity.
Defined.

Lemma process_period_without_points (timeseries : series) (period : CurvePeriod) :
  curvepoint_set period = [] ->
  process_period timeseries period = Raise (LibraryError "ValueError").
Proof.
  intros H. unfold process_period, _get_curve. rewrite H. reflexivity.
Qed.

Lemma process_periods_without_points (periods : list CurvePeriod) (timeseries : series) :
  (exists q, In q periods /\ curvepoint_set q = []) ->
  process_periods periods timeseries = Raise (LibraryError "ValueError").
Proof.
  revert timeseries. induction periods as [|p periods IH]; intros timeseries [q [Hq He]].
  - contradiction.
  - simpl. destruct (curvepoint_set p) as [|pt pts] eqn:Ep.
    + now rewrite process_period_without_points.
    + rewrite process_period_rows by (rewrite Ep; discriminate). simpl.
      apply IH. destruct Hq as [<-|Hq]; [congruence|]. now exists q.
Qed.

(** X10.  One period without points makes the whole pass fail with the
    [ValueError] of [np.interp], whatever the series, even an empty one,
    and whether or not a row falls in that period. *)
Theorem period_without_points_raises (self : t) (hts : series) (q : CurvePeriod) :
  In q (curveperiod_set self) ->
  curvepoint_set q = [] ->
  process_timeseries self hts = Raise (LibraryError "ValueError").
Proof.
  intros Hq He. apply process_periods_without_points. exists q. split; [|exact He].
  eapply Permutation_in; [apply Permutation_sym, order_by_perm | exact Hq].
Qed.

Lemma period_without_points_raises_witness :
  process_timeseries
    (mk [mkPeriod 0 100 [mkPoint 10 100; mkPoint 0 0]; mkPeriod 500 600 []]) []
  = Raise (LibraryError "ValueError").
Proof.
  apply (period_without_points_raises
           (mk [mkPeriod 0 100 [mkPoint 10 100; mkPoint 0 0]; mkPeriod 500 600 []]) []
           (mkPeriod 500 600 [])).
  - right. now left.
  - reflexivity.
Defined.

Lemma interp_value_missing (v : float) (xs ys : list float) (lval rval : float) :
  (2 <= List.length xs)%nat -> is_nan v = true ->
  interp_value v xs ys lval rval = v.
Proof.
  intros Hlen Hv. destruct xs as [|a [|b xs]]; simpl in Hlen; try lia.
  unfold interp_value. now rewrite Hv.
Qed.

(** X11.  Over a curve of two points or more a missing value stays missing (and
    the flags of the row are cleared like those of every row of the
    period). *)
Theorem missing_stays_missing (self : t) (period : CurvePeriod) (hts : series)
        (i : nat) (r : record) :
  (forall q, In q (curveperiod_set self) -> curvepoint_set q <> []) ->
  filter (covers (timestamp r)) (curveperiod_set self) = [period] ->
  (2 <= List.length (curvepoint_set period))%nat ->
  nth_error hts i = Some r ->
  isnull (value r) = true ->
  exists out : series,
    process_timeseries self hts = Ok out /\
    nth_error out i = Some (mkRecord (timestamp r) (value r) "").
Proof.
  intros H Hcov Hlen Hr Hv. eexists. split.
  - apply process_periods_rows, sorted_periods_have_points, H.
  - rewrite (map_nth_error _ _ _ Hr). f_equal.
    rewrite (fold_covered_once _ period).
    + unfold apply_period.
      assert (Hc : covers (timestamp r) period = true).
      { apply (proj2 (proj1 (filter_In (covers (timestamp r)) period (curveperiod_set self))
                        ltac:(rewrite Hcov; now left))). }
      rewrite Hc. f_equal. apply interp_value_missing; [|exact Hv].
      now rewrite (proj1 (get_curve_lengths period)).
    + apply Permutation_length_1_inv, Permutation_sym. rewrite <- Hcov.
      apply filter_perm, order_by_perm.
Qed.

Lemma missing_stays_missing_witness :
  exists out : series,
    process_timeseries (mk [mkPeriod 0 100 [mkPoint 10 100; mkPoint 0 0]])
      [mkRecord 10 nan "RANGE"] = Ok out /\
    nth_error out 0 = Some (mkRecord 10 nan "").
Proof.
  apply (missing_stays_missing (mk [mkPeriod 0 100 [mkPoint 10 100; mkPoint 0 0]])
           (mkPeriod 0 100 [mkPoint 10 100; mkPoint 0 0])
           [mkRecord 10 nan "RANGE"] 0%nat (mkRecord 10 nan "RANGE")).
  - intros q [<-|[]]. discriminate.
  - reflexivity.
  - simpl. lia.
  - reflexivity.
  - reflexivity.
Defined.

(** X12.  Two periods that both cover a row are applied one after the
    other, the one with the earlier start date first, in whichever order
    they are stored: the second interpolates the value the first
    produced, not the value of the source. *)
Theorem overlapping_periods_compose
        (periods : list CurvePeriod) (p q : CurvePeriod) (hts : series) (i : nat) (r : record) :
  Permutation periods [p; q] ->
  curvepoint_set p <> [] -> curvepoint_set q <> [] ->
  start_date p < start_date q ->
  covers (timestamp r) p = true -> covers (timestamp r) q = true ->
  nth_error hts i = Some r ->
  exists out : series,
    process_timeseries (mk periods) hts = Ok out /\
    nth_error out i
    = Some (mkRecord (timestamp r)
              (interp_value
                 (interp_value (value r) (fst (_get_curve p)) (snd (_get_curve p)) nan nan)
                 (fst (_get_curve q)) (snd (_get_curve q)) nan nan)
              "").
Proof.
  intros Hperm Hp Hq Hlt Hcp Hcq Hr.
  assert (Hsorted : order_by (fun a b => start_date a <=? start_date b) periods = [p; q]).
  { apply Permutation_sym, Permutation_length_2_inv in Hperm.
    destruct Hperm as [->| ->]; simpl.
    - now rewrite (proj2 (Z.leb_le _ _) (Z.lt_le_incl _ _ Hlt)).
    - now rewrite (proj2 (Z.leb_gt _ _) Hlt). }
  unfold process_timeseries. cbn [curveperiod_set]. rewrite Hsorted.
  eexists. split.
  - apply process_periods_rows. intros a [<-|[<-|[]]]; assumption.
  - rewrite (map_nth_error _ _ _ Hr). f_equal.
    cbn [fold_left]. unfold apply_period at 2. rewrite Hcp.
    unfold apply_period. cbn [timestamp value]. now rewrite Hcq.
Qed.

(** The period that starts later is stored first; the row of the sixth
    day still goes through the earlier one first: 5 maps to 50, and 50 to
    1.5. *)
Lemma overlapping_periods_compose_witness :
  exists out : series,
    process_timeseries
      (mk [mkPeriod 5 15 [mkPoint 0 1; mkPoint 100 2];
           mkPeriod 0 10 [mkPoint 0 0; mkPoint 10 100]])
      [mkRecord (midnight 6) 5 ""] = Ok out /\
    nth_error out 0 = Some (mkRecord (midnight 6) 1.5 "").
Proof.
  destruct (overlapping_periods_compose
              [mkPeriod 5 15 [mkPoint 0 1; mkPoint 100 2];
               mkPeriod 0 10 [mkPoint 0 0; mkPoint 10 100]]
              (mkPeriod 0 10 [mkPoint 0 0; mkPoint 10 100])
              (mkPeriod 5 15 [mkPoint 0 1; mkPoint 100 2])
              [mkRecord (midnight 6) 5 ""] 0%nat (mkRecord (midnight 6) 5 ""))
    as [out [H1 H2]]; try reflexivity; try discriminate; [apply perm_swap|].
  exists out. split; [exact H1 | exact H2].
Defined.

End CurveInterpolationMore.

(** ** CurvePeriod.set_curve *)

Module CurveEditingProps.

Import CurveInterpolation CurveEditing CurveEditingSamples.

Lemma replace_tabs_again (s : string) : replace_tabs (replace_tabs s) = replace_tabs s.
Proof.
  induction s as [|c s IH]; [reflexivity|]. simpl. rewrite IH. f_equal.
  destruct (Ascii.eqb c tab) eqn:E; [reflexivity | now rewrite E].
Qed.

Lemma create_points_good (to_float : string -> option float)
      (rows : list (list string)) (read : list CurvePoint) (points : list CurvePoint) :
  Forall2 (fun row p => read_row to_float row = Some p) rows read ->
  forall rest,
    create_points to_float (rows ++ rest) points
    = create_points to_float rest (points ++ read).
Proof.
  intros H. revert points. induction H as [|row p rows read Hrow _ IH]; intros points rest.
  - now rewrite app_nil_r.
  - simpl. rewrite Hrow, IH, <- app_assoc. reflexivity.
Qed.

(** X13.  When every row reads as two numbers, [set_curve] returns and the
    period holds exactly the points read, in the order of the rows: the
    points it held before are gone, the dates stay. *)
Theorem set_curve_replaces_points
        (csv_reader : string -> list (list string)) (to_float : string -> option float)
        (self : CurvePeriod) (s : string) (read : list CurvePoint) :
  Forall2 (fun row p => read_row to_float row = Some p) (csv_reader (replace_tabs s)) read ->
  set_curve csv_reader to_float self s
  = (mkPeriod (start_date self) (end_date self) read, Returned).
Proof.
  intros H. unfold set_curve.
  pose proof (create_points_good to_float _ read [] H []) as E.
  rewrite app_nil_r in E. rewrite E. reflexivity.
Qed.

(** X14.  When a row does not read as two numbers, [set_curve] raises
    [ValueError] and leaves the period with the points of the rows before
    that one only: the former points are already deleted and the rows
    after it are not read. *)
Theorem set_curve_stops_at_bad_row
        (csv_reader : string -> list (list string)) (to_float : string -> option float)
        (self : CurvePeriod) (s : string)
        (good : list (list string)) (bad : list string) (rest : list (list string))
        (read : list CurvePoint) :
  csv_reader (replace_tabs s) = good ++ bad :: rest ->
  Forall2 (fun row p => read_row to_float row = Some p) good read ->
  read_row to_float bad = None ->
  set_curve csv_reader to_float self s
  = (mkPeriod (start_date self) (end_date self) read, RaisedValueError).
Proof.
  intros Hrows Hgood Hbad. unfold set_curve. rewrite Hrows.
  rewrite (create_points_good to_float good read [] Hgood). simpl.
  now rewrite Hbad.
Qed.

Lemma read_row_short (to_float : string -> option float) (row : list string) :
  (List.length row < 2)%nat -> read_row to_float row = None.
Proof.
  intros H. destruct row as [|a [|b row]]; simpl in H; try lia; unfold read_row; simpl.
  - reflexivity.
  - destruct (to_float a); reflexivity.
Qed.

Lemma create_points_bad_row (to_float : string -> option float)
      (rows : list (list string)) (row : list string) (points : list CurvePoint) :
  In row rows -> read_row to_float row = None ->
  snd (create_points to_float rows points) = RaisedValueError.
Proof.
  revert points. induction rows as [|r rows IH]; intros points Hin Hbad; [contradiction|].
  simpl. destruct (read_row to_float r) as [p|] eqn:E; [|reflexivity].
  destruct Hin as [->|Hin]; [congruence|]. now apply IH.
Qed.

(** X15.  A row with fewer than two fields anywhere among the rows the
    reader yields, for an empty line between two rows or a line with one
    field, makes [set_curve] raise [ValueError]. *)
Theorem set_curve_short_row_raises
        (csv_reader : string -> list (list string)) (to_float : string -> option float)
        (self : CurvePeriod) (s : string) (row : list string) :
  In row (csv_reader (replace_tabs s)) ->
  (List.length row < 2)%nat ->
  snd (set_curve csv_reader to_float self s) = RaisedValueError.
Proof.
  intros Hin Hlen. unfold set_curve.
  pose proof (create_points_bad_row to_float _ row [] Hin (read_row_short to_float row Hlen)) as E.
  destruct (create_points to_float (csv_reader (replace_tabs s)) []) as [points e].
  exact E.
Qed.

(** X16.  Tabs count as commas: a text and the text with its tabs turned into
    commas set the same curve, whatever the period held before. *)
Theorem set_curve_tabs_are_commas
        (csv_reader : string -> list (list string)) (to_float : string -> option float)
        (self other : CurvePeriod) (s : string) :
  start_date other = start_date self -> end_date other = end_date self ->
  set_curve csv_reader to_float other (replace_tabs s) = set_curve csv_reader to_float self s.
Proof.
  intros H1 H2. unfold set_curve. now rewrite replace_tabs_again, H1, H2.
Qed.

Lemma set_curve_replaces_points_witness :
  set_curve split_rows three_numbers (mkPeriod 0 100 [mkPoint 5 5]) two_rows
  = (mkPeriod 0 100 [mkPoint 0 0; mkPoint 10 100], Returned).
Proof.
  apply (set_curve_replaces_points split_rows three_numbers (mkPeriod 0 100 [mkPoint 5 5])
           two_rows [mkPoint 0 0; mkPoint 10 100]).
  repeat constructor.
Defined.

Lemma set_curve_stops_at_bad_row_witness :
  set_curve split_rows three_numbers (mkPeriod 0 100 [mkPoint 5 5])
    (String "0" (String "," (String "0" (String Aggregation.newline "x,100"))))
  = (mkPeriod 0 100 [mkPoint 0 0], RaisedValueError).
Proof.
  apply (set_curve_stops_at_bad_row split_rows three_numbers (mkPeriod 0 100 [mkPoint 5 5])
           _ [["0"; "0"]%string] ["x"; "100"]%string [] [mkPoint 0 0]).
  - reflexivity.
  - repeat constructor.
  - reflexivity.
Defined.

(** An empty line between two rows is a row without fields: the first
    row is stored and the call raises.  (A line break that ends the text
    gives no row.) *)
Lemma set_curve_short_row_raises_witness :
  let text :=
    String "0" (String "," (String "0" (String Aggregation.newline
      (String Aggregation.newline "10,100")))) in
  split_rows (replace_tabs text) = [["0"; "0"]; []; ["10"; "100"]]%string /\
  snd (set_curve split_rows three_numbers (mkPeriod 0 100 []) text) = RaisedValueError /\
  set_curve split_rows three_numbers (mkPeriod 0 100 [])
    (String "0" (String "," (String "0" (String Aggregation.newline EmptyString))))
  = (mkPeriod 0 100 [mkPoint 0 0], Returned).
Proof.
  intros text. split; [reflexivity|]. split; [|reflexivity].
  apply (set_curve_short_row_raises split_rows three_numbers (mkPeriod 0 100 []) text []).
  - right. now left.
  - simpl. lia.
Defined.

Lemma set_curve_tabs_are_commas_witness :
  set_curve split_rows three_numbers (mkPeriod 0 100 []) (replace_tabs two_rows)
  = set_curve split_rows three_numbers (mkPeriod 0 100 [mkPoint 5 5]) two_rows.
Proof.
  exact (set_curve_tabs_are_commas split_rows three_numbers
           (mkPeriod 0 100 [mkPoint 5 5]) (mkPeriod 0 100 []) two_rows eq_refl eq_refl).
Defined.

End CurveEditingProps.

(** ** Aggregation: steps, thresholds and the pass as a whole *)

Module AggregationMore.

Import Aggregation.



Lemma min_count_inversion (lib : pandas) (self : t) (source_step : option string)
      (target_step : string) (m : Z) :
  min_count lib self source_step target_step = Ok m ->
  exists a b : Z,
    Timedelta lib target_step = LibOk (Td a) /\
    to_offset lib source_step = LibOk (Some b) /\
    b <> 0 /\
    m = Z.max (Z.quot a b - max_missing self) 1.
Proof.
  unfold min_count, _divide_target_step_by_source_step.
  destruct (Timedelta lib target_step) as [[|a]|c]; simpl;
    destruct (to_offset lib source_step) as [[b|]|c']; simpl; try discriminate.
  destruct (Z.eqb_spec b 0); simpl; [discriminate|].
  intros H. injection H as <-. now exists a, b.
Qed.

(** X18.  Whenever [min_count] is computed it is at least 1, and allowing more
    records to miss never raises it. *)
Theorem min_count_bounds (lib : pandas) (self : t) (source_step : option string)
        (target_step : string) (m : Z) :
  min_count lib self source_step target_step = Ok m ->
  1 <= m /\
  forall more : Z,
    max_missing self <= more ->
    exists m' : Z,
      min_count lib (mk (target_time_step self) (method self) more
                        (resulting_timestamp_offset self)) source_step target_step = Ok m' /\
      1 <= m' <= m.
Proof.
  intros H. destruct (min_count_inversion _ _ _ _ _ H) as [a [b [Ht [Hs [Hb ->]]]]].
  split; [lia|]. intros more Hmore.
  exists (Z.max (Z.quot a b - more) 1). split; [|lia].
  unfold min_count, _divide_target_step_by_source_step. rewrite Ht, Hs. simpl.
  destruct (Z.eqb_spec b 0); [contradiction | reflexivity].
Qed.

Lemma min_count_bounds_witness :
  exists m' : Z,
    min_count Minutes.lib (mk "60min" Mean 9 "") (Some "10min"%string) "60min" = Ok m' /\
    1 <= m' <= 4.
Proof.
  exact (proj2 (min_count_bounds Minutes.lib (mk "60min" Mean 2 "") (Some "10min"%string)
                  "60min" 4 eq_refl) 9 ltac:(simpl; lia)).
Defined.

(** X19.  A last record whose flags do not hold the letters [MISS] is never
    dropped, whatever the offset and however early the source ends. *)
Theorem unflagged_last_record_stays (lib : pandas) (self : t) (source_end_date : Z)
        (r0 : record) (data : series) (td : timedelta) :
  Timedelta lib (resulting_timestamp_offset self) = LibOk td ->
  contains "MISS" (flags (last data r0)) = false ->
  _trim_last_record_if_not_complete lib self source_end_date (r0 :: data) = Ok (r0 :: data).
Proof.
  intros Ht Hc. unfold _trim_last_record_if_not_complete, _last_target_record_needs_trimming.
  rewrite Ht. cbn [call bind]. now rewrite Hc.
Qed.

Lemma unflagged_last_record_stays_witness :
  _trim_last_record_if_not_complete Minutes.lib (mk "H" Sum 2 "1min") (760 * Minutes.minute)
    [mkRecord (779 * Minutes.minute) 4 "MISS"; mkRecord (839 * Minutes.minute) 1 ""]
  = Ok [mkRecord (779 * Minutes.minute) 4 "MISS"; mkRecord (839 * Minutes.minute) 1 ""].
Proof.
  exact (unflagged_last_record_stays Minutes.lib (mk "H" Sum 2 "1min") (760 * Minutes.minute)
           (mkRecord (779 * Minutes.minute) 4 "MISS") [mkRecord (839 * Minutes.minute) 1 ""]
           (Td (1 * Minutes.minute)) eq_refl eq_refl).
Defined.

Lemma contains_unfold (needle hay : string) :
  contains needle hay
  = if prefix needle hay then true
    else match hay with
         | EmptyString => false
         | String _ hay' => contains needle hay'
         end.
Proof. destruct hay; reflexivity. Qed.

Lemma contains_inside (needle pre post : string) :
  contains needle (pre ++ needle ++ post) = true.
Proof.
  induction pre as [|c pre IH].
  - simpl append. now rewrite contains_unfold, prefix_app.
  - rewrite contains_unfold.
    change (String c pre ++ needle ++ post)%string with (String c (pre ++ needle ++ post)).
    destruct (prefix needle (String c (pre ++ needle ++ post))); [reflexivity | exact IH].
Qed.

(** X20.  The test for [MISS] is a test for the letters, not for the flag: a
    last record whose flags hold [MISS] anywhere, inside another flag too,
    is dropped when the source ends before its timestamp plus the
    offset. *)
Theorem letters_of_miss_are_enough (lib : pandas) (self : t) (source_end_date : Z)
        (r0 : record) (data : series) (d : Z) (pre post : string) :
  Timedelta lib (resulting_timestamp_offset self) = LibOk (Td d) ->
  flags (last data r0) = (pre ++ "MISS" ++ post)%string ->
  source_end_date < timestamp (last data r0) + d ->
  _trim_last_record_if_not_complete lib self source_end_date (r0 :: data)
  = Ok (removelast (r0 :: data)).
Proof.
  intros Ht Hf Hlt. unfold _trim_last_record_if_not_complete, _last_target_record_needs_trimming.
  rewrite Ht. cbn [call bind timestamp_add timestamp_lt].
  rewrite Hf, contains_inside, (proj2 (Z.ltb_lt _ _) Hlt). reflexivity.
Qed.

Lemma letters_of_miss_are_enough_witness :
  has_flag "MISS" "DISMISSED" = false /\
  _trim_last_record_if_not_complete Minutes.lib (mk "H" Sum 2 "1min") (760 * Minutes.minute)
    [mkRecord (779 * Minutes.minute) 4 ""; mkRecord (839 * Minutes.minute) 1 "DISMISSED"]
  = Ok [mkRecord (779 * Minutes.minute) 4 ""].
Proof.
  split; [reflexivity|].
  exact (letters_of_miss_are_enough Minutes.lib (mk "H" Sum 2 "1min") (760 * Minutes.minute)
           (mkRecord (779 * Minutes.minute) 4 "") [mkRecord (839 * Minutes.minute) 1 "DISMISSED"]
           (1 * Minutes.minute) "DIS" "ED" eq_refl eq_refl eq_refl).
Defined.

Lemma index_last_returns (hts : series) (e : Z) : index_last hts = Ok e -> hts <> [].
Proof. destruct hts; [discriminate | discriminate]. Qed.

(** X21.  Whenever the pass returns, the source had rows and the result is what
    [aggregate] answered for the regularized series, the normalised target
    step, the method, a [min_count] of at least 1 and the offset ([None]
    for an empty one), less at most its last record. *)
Theorem pass_returns_aggregate_output
        (lib : pandas) (hag : haggregate) (self : t) (hts out : series) :
  process_timeseries lib hag self hts = Ok out ->
  hts <> [] /\
  exists (regular : series) (target_step : string) (mc : Z) (aggregated : series),
    regularize hag hts "DATEINSERT" = LibOk regular /\
    _get_target_step self = Ok target_step /\
    1 <= mc /\
    aggregate hag regular target_step (method self) mc
      (if String.eqb (resulting_timestamp_offset self) "" then None
       else Some (resulting_timestamp_offset self)) = LibOk aggregated /\
    (out = aggregated \/ out = removelast aggregated).
Proof.
  unfold process_timeseries.
  destruct (index_last hts) as [e|ex] eqn:E1; simpl; [|discriminate].
  unfold _regularize_time_series.
  destruct (regularize hag hts "DATEINSERT") as [h1|c] eqn:E2; simpl; [|discriminate].
  unfold _aggregate_time_series, _get_source_step.
  destruct (infer_freq lib (map timestamp h1)) as [ss|c]; simpl; [|discriminate].
  destruct (_get_target_step self) as [ts|ex] eqn:E3; simpl; [|discriminate].
  destruct (min_count lib self ss ts) as [mc|ex] eqn:E4; simpl; [|discriminate].
  destruct (aggregate hag h1 ts (method self) mc _) as [h2|c] eqn:E5; simpl; [|discriminate].
  unfold _trim_last_record_if_not_complete.
  destruct (_last_target_record_needs_trimming lib self e h2) as [b|ex]; simpl; [|discriminate].
  intros H. injection H as <-.
  split; [exact (index_last_returns _ _ E1)|].
  exists h1, ts, mc, h2. repeat split; try assumption.
  - destruct (min_count_inversion _ _ _ _ _ E4) as [a [b' [_ [_ [_ ->]]]]]. lia.
  - destruct b; [now right | now left].
Qed.

Lemma pass_returns_aggregate_output_witness :
  let hag := mkHaggregate
               (fun hts _ => LibOk hts)
               (fun _ _ _ _ _ => LibOk [mkRecord (60 * Minutes.minute) 6 "";
                                        mkRecord (120 * Minutes.minute) 2 "MISS"]) in
  let hts := [mkRecord (10 * Minutes.minute) 1 ""; mkRecord (20 * Minutes.minute) 1 "";
              mkRecord (30 * Minutes.minute) 1 ""] in
  process_timeseries Minutes.lib hag (mk "60min" Sum 5 "1min") hts
  = Ok [mkRecord (60 * Minutes.minute) 6 ""] /\
  hts <> [].
Proof.
  intros hag hts. split; [reflexivity|].
  exact (proj1 (pass_returns_aggregate_output Minutes.lib hag (mk "60min" Sum 5 "1min") hts
                  [mkRecord (60 * Minutes.minute) 6 ""] eq_refl)).
Defined.

End AggregationMore.

(** ** Stored order of periods and of points *)

Module StoredOrder.

Import NumPy NumPyFacts CurveInterpolation CurveInterpolationProps CurveInterpolationMore
       CurveOrder FloatOrder.

Lemma fold_by_cover (periods periods' : list CurvePeriod) (r : record) :
  Permutation periods periods' ->
  (List.length (filter (covers (timestamp r)) periods) <= 1)%nat ->
  fold_left (fun r q => apply_period q r) periods r
  = fold_left (fun r q => apply_period q r) periods' r.
Proof.
  intros Hperm Hlen.
  pose proof (filter_perm (covers (timestamp r)) _ _ Hperm) as Hf.
  destruct (filter (covers (timestamp r)) periods) as [|p [|p' l]] eqn:E.
  - rewrite (fold_uncovered periods r E).
    symmetry. apply fold_uncovered. now apply Permutation_nil.
  - rewrite (fold_covered_once periods p r E).
    symmetry. apply fold_covered_once. now apply Permutation_length_1_inv.
  - simpl in Hlen. lia.
Qed.

(** X22.  When every period has points and no row is covered by two periods,
    the result does not depend on the order in which the periods are
    stored. *)
Theorem period_order_is_irrelevant (periods periods' : list CurvePeriod) (hts : series) :
  Permutation periods periods' ->
  (forall q, In q periods -> curvepoint_set q <> []) ->
  (forall r, In r hts -> (List.length (filter (covers (timestamp r)) periods) <= 1)%nat) ->
  process_timeseries (mk periods') hts = process_timeseries (mk periods) hts.
Proof.
  intros Hperm Hne Hcov. unfold process_timeseries. cbn [curveperiod_set].
  set (le := fun p q => start_date p <=? start_date q).
  rewrite (process_periods_rows (order_by le periods)).
  2:{ intros q Hq. apply Hne. eapply Permutation_in; [apply order_by_perm | exact Hq]. }
  rewrite (process_periods_rows (order_by le periods')).
  2:{ intros q Hq. apply Hne.
      eapply Permutation_in; [apply Permutation_sym, Hperm|].
      eapply Permutation_in; [apply order_by_perm | exact Hq]. }
  f_equal. apply map_ext_in. intros r Hr.
  assert (Hp : Permutation (order_by le periods') (order_by le periods)).
  { eapply perm_trans; [apply order_by_perm|].
    eapply perm_trans; [apply Permutation_sym, Hperm|].
    apply Permutation_sym, order_by_perm. }
  apply fold_by_cover; [exact Hp|].
  rewrite (Permutation_length (filter_perm (covers (timestamp r)) _ _ Hp)).
  rewrite (Permutation_length (filter_perm (covers (timestamp r)) _ _ (order_by_perm le periods))).
  now apply Hcov.
Qed.

Lemma period_order_is_irrelevant_witness :
  process_timeseries
    (mk [mkPeriod 200 300 [mkPoint 0 1; mkPoint 100 2];
         mkPeriod 0 100 [mkPoint 0 0; mkPoint 10 100]])
    [mkRecord 10 5 ""; mkRecord 250 50 ""]
  = process_timeseries
      (mk [mkPeriod 0 100 [mkPoint 0 0; mkPoint 10 100];
           mkPeriod 200 300 [mkPoint 0 1; mkPoint 100 2]])
      [mkRecord 10 5 ""; mkRecord 250 50 ""].
Proof.
  apply period_order_is_irrelevant.
  - apply perm_swap.
  - intros q [<-|[<-|[]]]; discriminate.
  - intros r [<-|[<-|[]]]; simpl; lia.
Defined.

Lemma ascending_points_unique (l l' : list CurvePoint) :
  Permutation l l' ->
  ascending (map x l) = true -> ascending (map x l') = true ->
  l = l'.
Proof.
  revert l'. induction l as [|a l IH]; intros l' Hperm Hl Hl'.
  - apply Permutation_nil in Hperm. now subst.
  - destruct l' as [|a' l'].
    { apply Permutation_sym, Permutation_nil in Hperm. discriminate. }
    assert (Ea : a = a').
    { assert (Hin : In a (a' :: l')) by (eapply Permutation_in; [exact Hperm | now left]).
      assert (Hin' : In a' (a :: l))
        by (eapply Permutation_in; [apply Permutation_sym, Hperm | now left]).
      destruct Hin as [E|Hin]; [now symmetry|].
      destruct Hin' as [E|Hin']; [exact E|].
      exfalso.
      assert (H1 : (x a' <? x a)%float = true).
      { apply (ascending_head_lt (x a') (map x l')); [exact Hl' | now apply in_map]. }
      assert (H2 : (x a <? x a')%float = true).
      { apply (ascending_head_lt (x a) (map x l)); [exact Hl | now apply in_map]. }
      apply ltb_not_leb in H1. apply ltb_leb in H2. congruence. }
    subst a'. f_equal. apply IH.
    + eapply Permutation_cons_inv. exact Hperm.
    + exact (ascending_tail _ _ Hl).
    + exact (ascending_tail _ _ Hl').
Qed.

(** X23.  When no [x] is NaN and no two points share an [x], the curve does not
    depend on the order in which the points are stored. *)
Theorem point_order_is_irrelevant (period period' : CurvePeriod) :
  Permutation (curvepoint_set period) (curvepoint_set period') ->
  NoDup (curvepoint_set period) ->
  (forall p, In p (curvepoint_set period) -> is_nan (x p) = false) ->
  (forall p q, In p (curvepoint_set period) -> In q (curvepoint_set period) ->
               (x p =? x q)%float = true -> p = q) ->
  _get_curve period' = _get_curve period.
Proof.
  intros Hperm Hnd Hnum Hdist.
  assert (Hasc : ascending (fst (_get_curve period)) = true)
    by now apply get_curve_ascending.
  assert (Hasc' : ascending (fst (_get_curve period')) = true).
  { apply get_curve_ascending.
    - eapply Permutation_NoDup; eassumption.
    - intros p Hp. apply Hnum. eapply Permutation_in; [apply Permutation_sym, Hperm | exact Hp].
    - intros p q Hp Hq. apply Hdist;
        (eapply Permutation_in; [apply Permutation_sym, Hperm | assumption]). }
  unfold _get_curve in *. cbn [fst] in Hasc, Hasc'.
  set (le := fun p q => (x p <=? x q)%float) in *.
  assert (E : order_by le (curvepoint_set period') = order_by le (curvepoint_set period)).
  { apply ascending_points_unique; try assumption.
    eapply perm_trans; [apply order_by_perm|].
    eapply perm_trans; [apply Permutation_sym, Hperm|].
    apply Permutation_sym, order_by_perm. }
  now rewrite E.
Qed.

Lemma point_order_is_irrelevant_witness :
  _get_curve (mkPeriod 0 100 [mkPoint 0 0; mkPoint 10 100])
  = _get_curve (mkPeriod 0 100 [mkPoint 10 100; mkPoint 0 0]).
Proof.
  apply point_order_is_irrelevant.
  - apply perm_swap.
  - constructor; [intros [H|[]]; discriminate H|].
    constructor; [intros []|constructor].
  - intros p [<-|[<-|[]]]; reflexivity.
  - intros p q [<-|[<-|[]]] [<-|[<-|[]]] H; try reflexivity; discriminate H.
Defined.

End StoredOrder.

(** ** Aggregation: an offset pandas does not read *)

Module UnreadableOffset.

Import Aggregation.

(** X24.  When [pd.Timedelta] refuses the offset, the trim fails with that
    error as soon as there is a record to look at, and returns the empty
    output untouched when there is none. *)
Theorem trim_with_unreadable_offset (lib : pandas) (self : t) (source_end_date : Z)
        (data : series) (class_name : string) :
  Timedelta lib (resulting_timestamp_offset self) = LibRaise class_name ->
  _trim_last_record_if_not_complete lib self source_end_date data
  = match data with
    | [] => Ok []
    | _ :: _ => Raise (LibraryError class_name)
    end.
Proof.
  intros H. unfold _trim_last_record_if_not_complete, _last_target_record_needs_trimming.
  destruct data as [|r0 data]; [reflexivity|]. now rewrite H.
Qed.

(** The offset [min] passes the check of [save]; read by a [pd.Timedelta]
    that wants a number before the unit, it stops the pass at the trim. *)
Lemma trim_with_unreadable_offset_witness :
  save (mk "H" Sum 0 "min") [] = Ok [mk "H" Sum 0 "min"] /\
  _trim_last_record_if_not_complete Minutes.lib (mk "H" Sum 0 "min") 0 [mkRecord 60 1 ""]
  = Raise (LibraryError "ValueError").
Proof.
  split; [reflexivity|].
  exact (trim_with_unreadable_offset Minutes.lib (mk "H" Sum 0 "min") 0 [mkRecord 60 1 ""]
           "ValueError" eq_refl).
Defined.

End UnreadableOffset.
